(** * Schedule data model of [events/models.py]

    A shallow embedding of the conference schedule models: the day
    markers, the [Time] ordering protocol, the [Location] codes and their
    layout widths, the keynote URL helper, the proposed-talk manager and
    the [Schedule] snapshot ordering.  Python values are embedded as Rocq
    data, exceptions as an explicit [result] type, dictionaries as stdpp
    finite maps and the query layer as state passing over a query counter. *)

From Stdlib Require Import ZArith String Ascii List Lia.
From stdpp Require Import base option list gmap strings sorting.

Local Open Scope Z_scope.

(** ** Python runtime: exceptions and results *)

Module Py.

(** The exceptions the embedded code can raise. *)
Inductive exn : Type :=
| KeyError (key : string)
| TypeError
| ValueError
| DoesNotExist
| MultipleObjectsReturned
| FieldError
| ValidationError.

(** A computation either returns a value or raises. *)
Inductive result (A : Type) : Type :=
| Ok (a : A)
| Raise (e : exn).
Arguments Ok {A} a.
Arguments Raise {A} e.

Definition bind {A B} (m : result A) (k : A → result B) : result B :=
  match m with
  | Ok a => k a
  | Raise e => Raise e
  end.

Definition returns {A} (m : result A) : Prop := ∃ a, m = Ok a.

(** What a rich-comparison method hands back: a boolean, or the
    [NotImplemented] singleton. *)
Inductive cmp_result : Type :=
| PyBool (b : bool)
| NotImplemented.

(** [str] comparison: lexicographic on code points, a proper prefix
    sorting first. *)
Definition str_lt (s1 s2 : string) : bool := String.ltb s1 s2.

(** The only test a sort makes: [s2 < s1] is false, so [s1] may stay
    in front of [s2]. *)
Definition str_le (s1 s2 : string) : Prop := str_lt s2 s1 = false.

Global Instance str_le_dec (s1 s2 : string) : Decision (str_le s1 s2).
Proof. unfold str_le. apply _. Defined.

(** [len] of a str. *)
Definition len (s : string) : Z := Z.of_nat (String.length s).

(** [sorted] on a list of str: a stable merge sort under [<]. *)
Definition sorted (l : list string) : list string := merge_sort str_le l.

End Py.

(** ** URL helpers of [urllib.parse] *)

Module urllib_parse.

(** The five-field result of [urlsplit]. *)
Record SplitResult : Type := mk_split {
  scheme : string;
  netloc : string;
  path : string;
  query : string;
  fragment : string
}.

(** [split._replace(fragment=frag)]. *)
Definition replace_fragment (split : SplitResult) (frag : string) : SplitResult :=
  {| scheme := scheme split; netloc := netloc split; path := path split;
     query := query split; fragment := frag |}.

(** Truth value of a str: non-empty. *)
Definition truthy (s : string) : bool :=
  match s with
  | EmptyString => false
  | String _ _ => true
  end.

(** [c in s]. *)
Fixpoint contains (c : ascii) (s : string) : bool :=
  match s with
  | EmptyString => false
  | String a s' => Ascii.eqb a c || contains c s'
  end.

(** [s.split(c, 1)] for a [c] that occurs in [s]: the text before the
    first [c] and the text after it. *)
Fixpoint split1 (c : ascii) (s : string) : string * string :=
  match s with
  | EmptyString => (EmptyString, EmptyString)
  | String a s' =>
      if Ascii.eqb a c then (EmptyString, s')
      else let (before, after) := split1 c s' in (String a before, after)
  end.

Fixpoint str_all (p : ascii → bool) (s : string) : bool :=
  match s with
  | EmptyString => true
  | String a s' => p a && str_all p s'
  end.

Fixpoint str_map (f : ascii → ascii) (s : string) : string :=
  match s with
  | EmptyString => EmptyString
  | String a s' => String (f a) (str_map f s')
  end.

Fixpoint str_drop (n : nat) (s : string) : string :=
  match n, s with
  | O, _ => s
  | S _, EmptyString => EmptyString
  | S n', String _ s' => str_drop n' s'
  end.

Definition lower_char (c : ascii) : ascii :=
  let n := N_of_ascii c in
  if ((65 <=? n) && (n <=? 90))%N then ascii_of_N (n + 32) else c.

Definition lower (s : string) : string := str_map lower_char s.

Definition scheme_chars : string :=
  "abcdefghijklmnopqrstuvwxyzABCDEFGHIJKLMNOPQRSTUVWXYZ0123456789+-.".

Definition uses_netloc : list string :=
  [ "ftp"; "http"; "gopher"; "nntp"; "telnet"; "imap"; "wais"; "file";
    "mms"; "https"; "shttp"; "snews"; "prospero"; "rtsp"; "rtspu";
    "rsync"; ""; "svn"; "svn+ssh"; "sftp"; "nfs"; "git"; "git+ssh" ]%string.

(** The first step of [urlsplit]: with [i = url.find(':')] positive, the
    text before the colon is taken as the scheme when it consists of
    scheme characters and what follows is not a port number. *)
Definition split_scheme (url : string) : string * string :=
  if contains ":" url then
    let (head, rest) := split1 ":" url in
    if negb (truthy head) then (EmptyString, url)
    else if String.eqb head "http" then (lower head, rest)
    else if str_all (fun c => contains c scheme_chars) head then
      if negb (truthy rest)
         || negb (str_all (fun c => contains c "0123456789") rest)
      then (lower head, rest)
      else (EmptyString, url)
    else (EmptyString, url)
  else (EmptyString, url).

(** [_splitnetloc(url, 2)] on the text after the two slashes: the
    network location runs up to the first of [/], [?] and [#]. *)
Fixpoint splitnetloc (s : string) : string * string :=
  match s with
  | EmptyString => (EmptyString, EmptyString)
  | String a s' =>
      if contains a "/?#" then (EmptyString, s)
      else let (loc, rest) := splitnetloc s' in (String a loc, rest)
  end.

Definition urlsplit (url : string) : Py.result SplitResult :=
  let (scheme, url) := split_scheme url in
  Py.bind
    (if String.prefix "//" url then
       let (netloc, url) := splitnetloc (str_drop 2 url) in
       if (contains "[" netloc && negb (contains "]" netloc))
          || (contains "]" netloc && negb (contains "[" netloc))
       then Py.Raise Py.ValueError
       else Py.Ok (netloc, url)
     else Py.Ok (EmptyString, url))
    (fun '(netloc, url) =>
       let (url, fragment) :=
         if contains "#" url then split1 "#" url else (url, EmptyString) in
       let (url, query) :=
         if contains "?" url then split1 "?" url else (url, EmptyString) in
       Py.Ok (mk_split scheme netloc url query fragment)).

Definition urlunsplit (components : SplitResult) : string :=
  let url := path components in
  let url :=
    if truthy (netloc components)
       || (truthy (scheme components)
           && bool_decide (scheme components ∈ uses_netloc)
           && negb (String.prefix "//" url))
    then
      let url :=
        if truthy url && negb (String.prefix "/" url)
        then ("/" +:+ url) else url in
      "//" +:+ netloc components +:+ url
    else url in
  let url :=
    if truthy (scheme components)
    then scheme components +:+ ":" +:+ url else url in
  let url :=
    if truthy (query components)
    then url +:+ "?" +:+ query components else url in
  let url :=
    if truthy (fragment components)
    then url +:+ "#" +:+ fragment components else url in
  url.

End urllib_parse.

(** ** Day markers *)

(** [datetime.date]: compared field by field, year first. *)
Record date : Type := mk_date { year : Z; month : Z; day : Z }.

Global Instance date_eq_dec : EqDecision date.
Proof. solve_decision. Defined.

Definition date_lt (a b : date) : bool :=
  (year a <? year b)
  || ((year a =? year b)
      && ((month a <? month b)
          || ((month a =? month b) && (day a <? day b)))).

(** [collections.OrderedDict]: keys are kept in first-insertion order;
    assigning to a key already present keeps its position. *)
Module OrderedDict.
Section ordered_dict.
Context {K V : Type} `{EqDecision K}.

Definition t : Type := list (K * V).

Fixpoint setitem (k : K) (v : V) (d : t) : t :=
  match d with
  | [] => [(k, v)]
  | (k', v') :: d' =>
      if decide (k' = k) then (k', v) :: d' else (k', v') :: setitem k v d'
  end.

Definition of_pairs (items : list (K * V)) : t :=
  fold_left (fun d kv => setitem (fst kv) (snd kv) d) items [].

(** Iterating over the mapping yields its keys. *)
Definition iter (d : t) : list K := map fst d.

Definition getitem (k : K) (d : t) : option V :=
  snd <$> find (fun kv => bool_decide (fst kv = k)) d.
End ordered_dict.
End OrderedDict.

Definition DAY_1 : date := mk_date 2016 6 3.
Definition DAY_2 : date := mk_date 2016 6 4.
Definition DAY_3 : date := mk_date 2016 6 5.

(** The translatable labels are kept as their message ids. *)
Definition DAY_NAMES : OrderedDict.t (K:=date) (V:=string) :=
  OrderedDict.of_pairs
    [ (DAY_1, "Day 1"%string);
      (DAY_2, "Day 2"%string);
      (DAY_3, "Day 3"%string) ].

(** ** Location codes *)

Module Location.

Definition R3 : string := "1-r3".
Definition ALL : string := "2-all".
Definition R012 : string := "3-r012".
Definition R0 : string := "4-r0".
Definition R1 : string := "5-r1".
Definition R2 : string := "6-r2".

(** The dictionary display of [get_md_width]; entries are inserted in
    the order they are written. *)
Definition md_width_table : gmap string Z :=
  <["1-r3" := 1]> (<["6-r2" := 1]> (<["5-r1" := 1]> (<["4-r0" := 1]>
    (<["3-r012" := 3]> (<["2-all" := 4]> ∅))))).

(** Subscripting the dictionary raises [KeyError] on a missing key. *)
Definition get_md_width (value : string) : Py.result Z :=
  match md_width_table !! value with
  | Some w => Py.Ok w
  | None => Py.Raise (Py.KeyError value)
  end.

(** The six codes, in the order the class body declares them. *)
Definition codes : list string := [R3; ALL; R012; R0; R1; R2].

End Location.

(** ** Events *)

Module BaseEvent.

(** [LOCATION_CHOICES]: (stored code, label message id). *)
Definition LOCATION_CHOICES : list (string * string) :=
  [ (Location.ALL, "All rooms"%string);
    (Location.R012, "R0, R1, R2"%string);
    (Location.R0, "R0"%string);
    (Location.R1, "R1"%string);
    (Location.R2, "R2"%string);
    (Location.R3, "R3"%string) ].

(** [max_length] of the [location] character field. *)
Definition location_max_length : Z := 6.

(** Cleaning the [location] field, which is declared with
    [blank=True, null=True]: an empty value ([None] or the empty
    string) is let through untouched; any other value has to be the
    key of one of the choices and to pass the length validator. *)
Definition clean_location (value : option string) : Py.result (option string) :=
  match value with
  | None => Py.Ok None
  | Some EmptyString => Py.Ok (Some EmptyString)
  | Some s =>
      if bool_decide (s ∈ map fst LOCATION_CHOICES) then
        if location_max_length <? Py.len s
        then Py.Raise Py.ValidationError
        else Py.Ok (Some s)
      else Py.Raise Py.ValidationError
  end.

End BaseEvent.

(** ** Time *)

(** [datetime.datetime]: a point on the time line, counted in
    microseconds, that either carries a time zone ([aware]) or does not.
    Ordering two datetimes of different awareness raises [TypeError];
    testing them for equality answers [False]. *)
Record datetime : Type := mk_datetime { aware : bool; instant : Z }.

Global Instance datetime_eq_dec : EqDecision datetime.
Proof. solve_decision. Defined.

Definition datetime_lt (a b : datetime) : Py.result bool :=
  if Bool.eqb (aware a) (aware b)
  then Py.Ok (instant a <? instant b)
  else Py.Raise Py.TypeError.

Definition datetime_eq (a b : datetime) : bool :=
  Bool.eqb (aware a) (aware b) && (instant a =? instant b).

(** What a model attribute may hold before it is cleaned or saved. *)
Inductive field_value : Type :=
| VNone
| VStr (s : string)
| VDate (d : date)
| VDatetime (dt : datetime).

(** [isinstance(v, datetime.datetime)]; a plain date is not one. *)
Definition isinstance_datetime (v : field_value) : bool :=
  match v with
  | VDatetime _ => true
  | _ => false
  end.

(** [v1 < v2] on attribute values. *)
Definition value_lt (v1 v2 : field_value) : Py.result bool :=
  match v1, v2 with
  | VDatetime a, VDatetime b => datetime_lt a b
  | VDate a, VDate b => Py.Ok (date_lt a b)
  | VStr a, VStr b => Py.Ok (Py.str_lt a b)
  | _, _ => Py.Raise Py.TypeError
  end.

(** [v1 == v2] on attribute values. *)
Definition value_eq (v1 v2 : field_value) : bool :=
  match v1, v2 with
  | VNone, VNone => true
  | VStr a, VStr b => bool_decide (a = b)
  | VDate a, VDate b => bool_decide (a = b)
  | VDatetime a, VDatetime b => datetime_eq a b
  | _, _ => false
  end.

Module Time.

(** A [Time] instance: the object's identity and its one field, which
    is also the primary key. *)
Record t : Type := mk { oid : positive; value : field_value }.

(** The right-hand operand of a comparison: another [Time], or an
    object of some other class. *)
Inductive operand : Type :=
| OfTime (other : t)
| OfOther (v : field_value).

Definition __lt__ (self : t) (other : operand) : Py.result Py.cmp_result :=
  match other with
  | OfOther _ => Py.Ok Py.NotImplemented
  | OfTime other =>
      if negb (isinstance_datetime (value self))
         || negb (isinstance_datetime (value other))
      then Py.Ok Py.NotImplemented
      else Py.bind (value_lt (value self) (value other))
                   (fun b => Py.Ok (Py.PyBool b))
  end.

(** [Model.__eq__]: instances of the same model are equal when their
    primary keys are; an instance without a primary key equals only
    itself. *)
Definition __eq__ (self : t) (other : operand) : bool :=
  match other with
  | OfOther _ => false
  | OfTime other =>
      match value self with
      | VNone => bool_decide (oid self = oid other)
      | my_pk => value_eq my_pk (value other)
      end
  end.

(** The three methods [functools.total_ordering] derives from [__lt__]. *)
Definition __gt__ (self : t) (other : operand) : Py.result Py.cmp_result :=
  Py.bind (__lt__ self other) (fun op_result =>
    match op_result with
    | Py.NotImplemented => Py.Ok Py.NotImplemented
    | Py.PyBool b => Py.Ok (Py.PyBool (negb b && negb (__eq__ self other)))
    end).

Definition __le__ (self : t) (other : operand) : Py.result Py.cmp_result :=
  Py.bind (__lt__ self other) (fun op_result =>
    match op_result with
    | Py.NotImplemented => Py.Ok Py.NotImplemented
    | Py.PyBool b => Py.Ok (Py.PyBool (b || __eq__ self other))
    end).

Definition __ge__ (self : t) (other : operand) : Py.result Py.cmp_result :=
  Py.bind (__lt__ self other) (fun op_result =>
    match op_result with
    | Py.NotImplemented => Py.Ok Py.NotImplemented
    | Py.PyBool b => Py.Ok (Py.PyBool (negb b))
    end).

End Time.

Module KeynoteEvent.

Record t : Type := mk {
  location : option string;
  begin_time : option Time.t;
  end_time : option Time.t;
  speaker_name : string;
  slug : string
}.

Section routes.

(** [reverse] resolves a route name and its keyword arguments against
    the project's URL configuration, which lies outside the models. *)
Variable reverse : string → list (string * string) → Py.result string.

Definition get_absolute_url (self : t) : Py.result string :=
  Py.bind (reverse "page" [("path", "events/keynotes")]%string) (fun url =>
  Py.bind (urllib_parse.urlsplit url) (fun split =>
  let frag := ("keynote-speaker-" +:+ slug self)%string in
  Py.Ok (urllib_parse.urlunsplit (urllib_parse.replace_fragment split frag)))).

End routes.

End KeynoteEvent.

(** A URL as [reverse] produces it: a path from the root, not starting
    with two slashes, with neither query nor fragment. *)
Definition rooted_path (url : string) : Prop :=
  String.prefix "/" url = true ∧ String.prefix "//" url = false ∧
  urllib_parse.contains "?" url = false ∧
  urllib_parse.contains "#" url = false.

(** ** The query layer *)

(** A database session threads the number of queries sent so far. *)
Module Db.

Definition session (A : Type) : Type := nat → Py.result A * nat.

Definition ret {A} (a : A) : session A := fun n => (Py.Ok a, n).

Definition raise {A} (e : Py.exn) : session A := fun n => (Py.Raise e, n).

Definition bind {A B} (m : session A) (k : A → session B) : session B :=
  fun n =>
    match m n with
    | (Py.Ok a, n') => k a n'
    | (Py.Raise e, n') => (Py.Raise e, n')
    end.

(** One round trip to the database, answering [a]. *)
Definition query {A} (a : A) : session A := fun n => (Py.Ok a, S n).

(** A comprehension [[f(x) for x in l]]. *)
Fixpoint for_each {A B} (f : A → session B) (l : list A) : session (list B) :=
  match l with
  | [] => ret []
  | x :: l' => bind (f x) (fun y => bind (for_each f l') (fun ys => ret (y :: ys)))
  end.

Definition queries_sent {A} (m : session A) : nat := snd (m O).

End Db.

(** Modelled from the spec: [proposals.models.TalkProposal] is declared
    outside this file; the models here use its primary key, its title
    and its [accepted] flag. *)
Module TalkProposal.

Record t : Type := mk { pk : Z; title : string; accepted : bool }.

(** The value of a boolean column named in a lookup. *)
Definition flag (name : string) (p : t) : option bool :=
  if String.eqb name "accepted" then Some (accepted p) else None.

(** [TalkProposal.objects.get(pk=value)]. *)
Definition get (table : list t) (value : Z) : Py.result t :=
  match filter (fun p => pk p = value) table with
  | [] => Py.Raise Py.DoesNotExist
  | [p] => Py.Ok p
  | _ => Py.Raise Py.MultipleObjectsReturned
  end.

End TalkProposal.

Module ProposedTalkEvent.

(** A stored row: the [BaseEvent] columns and the proposal's key. *)
Record row : Type := mk_row {
  id : Z;
  location : option string;
  begin_time : option Time.t;
  end_time : option Time.t;
  proposal_id : Z
}.

(** A loaded instance: its row and the related proposal, when the query
    that loaded it has already brought the proposal along. *)
Record t : Type := mk { fields : row; proposal_cache : option TalkProposal.t }.

(** [limit_choices_to] of the [proposal] key. *)
Definition limit_choices_to : list (string * bool) := [("accepted"%string, true)].

(** Modelled from the spec: [core.models.BigForeignKey] is declared
    outside this file; validating the [proposal] key follows the
    choice-limiting contract: the referenced proposal must exist among
    those that satisfy every [limit_choices_to] lookup. *)
Definition validate_proposal (proposals : list TalkProposal.t) (value : Z)
  : Py.result unit :=
  let qs := filter (fun p => TalkProposal.pk p = value) proposals in
  let qs :=
    filter (fun p =>
              forallb (fun kv => bool_decide
                                   (TalkProposal.flag (fst kv) p = Some (snd kv)))
                      limit_choices_to = true) qs in
  match qs with
  | [] => Py.Raise Py.ValidationError
  | _ :: _ => Py.Ok tt
  end.

(** A query set over the talk events: the relations to join and the
    row filter. *)
Record QuerySet : Type := mk_qs {
  qs_select_related : list string;
  qs_where : row → bool
}.

Definition select_related (name : string) (qs : QuerySet) : QuerySet :=
  {| qs_select_related := qs_select_related qs ++ [name];
     qs_where := qs_where qs |}.

Definition qs_filter (p : row → bool) (qs : QuerySet) : QuerySet :=
  {| qs_select_related := qs_select_related qs;
     qs_where := fun r => qs_where qs r && p r |}.

(** Running a query set is one query.  A joined relation comes back
    with its row; the key may not be null, so the join is an inner one. *)
Definition load (proposals : list TalkProposal.t) (joined : bool) (r : row)
  : option t :=
  if joined then
    match filter (fun p => TalkProposal.pk p = proposal_id r) proposals with
    | p :: _ => Some (mk r (Some p))
    | [] => None
    end
  else Some (mk r None).

Definition fetch (proposals : list TalkProposal.t) (events : list row)
    (qs : QuerySet) : Db.session (list t) :=
  let joined := bool_decide ("proposal"%string ∈ qs_select_related qs) in
  Db.query (omap (load proposals joined) (filter (fun r => qs_where qs r = true) events)).

(** The [proposal] attribute: the cached record when there is one,
    else a query of its own. *)
Definition proposal (proposals : list TalkProposal.t) (self : t)
  : Db.session TalkProposal.t :=
  match proposal_cache self with
  | Some p => Db.ret p
  | None =>
      Db.bind (Db.query (TalkProposal.get proposals (proposal_id (fields self))))
              (fun found => match found with
                            | Py.Ok p => Db.ret p
                            | Py.Raise e => Db.raise e
                            end)
  end.

Definition __str__ (proposals : list TalkProposal.t) (self : t)
  : Db.session string :=
  Db.bind (proposal proposals self) (fun p => Db.ret (TalkProposal.title p)).

Section routes.

(** [reverse] for a route keyed by an integer, resolved against the
    project's URL configuration. *)
Variable reverse : string → list (string * Z) → Py.result string.

Definition get_absolute_url (proposals : list TalkProposal.t) (self : t)
  : Db.session string :=
  Db.bind (proposal proposals self) (fun p =>
    match reverse "events_talk_detail" [("pk"%string, TalkProposal.pk p)] with
    | Py.Ok url => Db.ret url
    | Py.Raise e => Db.raise e
    end).

End routes.

End ProposedTalkEvent.

(** [models.Manager]: the plain query set over all rows. *)
Module Manager.

Definition get_queryset : ProposedTalkEvent.QuerySet :=
  ProposedTalkEvent.mk_qs [] (fun _ => true).

End Manager.

Module ProposedTalkEventManager.

Definition get_queryset : ProposedTalkEvent.QuerySet :=
  ProposedTalkEvent.select_related "proposal" Manager.get_queryset.

(** The manager's query methods all start from [get_queryset]. *)
Definition all : ProposedTalkEvent.QuerySet := get_queryset.

Definition filter (p : ProposedTalkEvent.row → bool) : ProposedTalkEvent.QuerySet :=
  ProposedTalkEvent.qs_filter p get_queryset.

End ProposedTalkEventManager.

(** ** Schedule snapshots *)

Module Schedule.

(** A stored snapshot; [created_at] is the stored timestamp, in
    microseconds. *)
Record t : Type := mk { id : Z; html : string; created_at : Z }.

Module Meta.

Definition ordering : list string := ["-created_at"]%string.

Definition get_latest_by : string := "created_at".

End Meta.

(** One term of an [ORDER BY]: the column read and the direction. *)
Record sort_key : Type := mk_key { descending : bool; column : t → Z }.

(** The columns an ordering may name. *)
Definition column_of (name : string) : option (t → Z) :=
  if String.eqb name "created_at" then Some created_at
  else if String.eqb name "id" || String.eqb name "pk" then Some id
  else None.

(** An ordering term is a column name, with a leading minus sign for
    descending order. *)
Definition sort_key_of (term : string) : Py.result sort_key :=
  let (desc, name) :=
    match term with
    | String "-" name => (true, name)
    | _ => (false, term)
    end in
  match column_of name with
  | Some col => Py.Ok (mk_key desc col)
  | None => Py.Raise Py.FieldError
  end.

Fixpoint sort_keys_of (terms : list string) : Py.result (list sort_key) :=
  match terms with
  | [] => Py.Ok []
  | term :: terms' =>
      Py.bind (sort_key_of term) (fun k =>
      Py.bind (sort_keys_of terms') (fun ks => Py.Ok (k :: ks)))
  end.

(** Row [a] may come before row [b]: the first key on which they
    differ decides. *)
Fixpoint row_leb (keys : list sort_key) (a b : t) : bool :=
  match keys with
  | [] => true
  | k :: keys' =>
      if column k a =? column k b then row_leb keys' a b
      else if descending k then column k b <? column k a
      else column k a <? column k b
  end.

Definition row_le (keys : list sort_key) (a b : t) : Prop :=
  row_leb keys a b = true.

Global Instance row_le_dec keys a b : Decision (row_le keys a b).
Proof. unfold row_le. apply _. Defined.

(** [order_by] with the given terms, on the rows of the table. *)
Definition order_by (terms : list string) (rows : list t) : Py.result (list t) :=
  Py.bind (sort_keys_of terms) (fun keys => Py.Ok (merge_sort (row_le keys) rows)).

(** [Schedule.objects.all()], read in full: the rows in the order
    [Meta.ordering] asks for. *)
Definition all (rows : list t) : Py.result (list t) :=
  order_by Meta.ordering rows.

(** [get()] on a query set already evaluated to [found]. *)
Definition get (found : list t) : Py.result t :=
  match found with
  | [] => Py.Raise Py.DoesNotExist
  | [r] => Py.Ok r
  | _ => Py.Raise Py.MultipleObjectsReturned
  end.

(** [Schedule.objects.latest()]: order by [get_latest_by] descending,
    keep the first row, [get()] it. *)
Definition latest (rows : list t) : Py.result t :=
  Py.bind (order_by [("-" +:+ Meta.get_latest_by)%string] rows) (fun ordered =>
  get (take 1 ordered)).

(** The ordering of [Meta] is by [created_at], newest first. *)
Definition newest_first (a b : t) : Prop := created_at b ≤ created_at a.

(** The key the database hands to a new row: one past the largest. *)
Definition next_id (rows : list t) : Z :=
  1 + foldr (fun r m => Z.max (id r) m) 0 rows.

(** [Schedule.objects.create(html=html)] at the instant [now]:
    [auto_now_add] stamps [created_at] with the current time. *)
Definition create (html : string) (now : Z) (rows : list t) : list t * t :=
  let r := mk (next_id rows) html now in (rows ++ [r], r).

End Schedule.

(** * Properties *)

(** ** Location *)

Lemma get_md_width_codes :
  Forall (fun c => ∃ w, Location.get_md_width c = Py.Ok w ∧ w ∈ [1; 3; 4])
         Location.codes.
Proof.
  repeat constructor; eexists; (split; [vm_compute; reflexivity |]);
    set_solver.
Qed.

Lemma get_md_width_unknown (s : string) :
  s ∉ Location.codes → Location.get_md_width s = Py.Raise (Py.KeyError s).
Proof.
  unfold Location.codes, Location.R3, Location.ALL, Location.R012,
    Location.R0, Location.R1, Location.R2.
  intros Hs. unfold Location.get_md_width, Location.md_width_table.
  rewrite !lookup_insert_ne, lookup_empty; [done | ..];
    intros E; subst s; apply Hs; set_solver.
Qed.

(** C1: on each of the six location codes [get_md_width] returns a width
    that is 1, 3 or 4 and does not raise; on every other string it raises
    [KeyError] for that string, there being no default value. *)
Theorem get_md_width_closed_table (value : string) :
  (value ∈ Location.codes →
     ∃ w, Location.get_md_width value = Py.Ok w ∧ w ∈ [1; 3; 4]) ∧
  (value ∉ Location.codes →
     Location.get_md_width value = Py.Raise (Py.KeyError value)).
Proof.
  split.
  - intros Hin. pose proof get_md_width_codes as Hall.
    rewrite Forall_forall in Hall. by apply Hall.
  - apply get_md_width_unknown.
Qed.

Lemma get_md_width_closed_table_witness :
  (∃ w, Location.get_md_width "3-r012" = Py.Ok w ∧ w ∈ [1; 3; 4]) ∧
  Location.get_md_width "7-r4" = Py.Raise (Py.KeyError "7-r4").
Proof.
  split.
  - apply (get_md_width_closed_table "3-r012").
    unfold Location.codes. set_solver.
  - apply (get_md_width_closed_table "7-r4").
    unfold Location.codes. apply (bool_decide_unpack _). vm_compute. exact I.
Defined.

(** Every code offered by [LOCATION_CHOICES] has a width and is at most
    6 characters long, the [max_length] of the field. *)
Lemma location_choices_covered :
  Forall (fun c => Py.returns (Location.get_md_width c) ∧
                   Py.len c ≤ BaseEvent.location_max_length)
         (map fst BaseEvent.LOCATION_CHOICES).
Proof.
  repeat constructor; try (eexists; vm_compute; reflexivity);
    vm_compute; discriminate.
Qed.

(** ** Day markers *)

(** C7: the three day markers are strictly increasing dates, and
    iterating over [DAY_NAMES] yields them in that order, labelled
    Day 1, Day 2, Day 3. *)
Theorem day_markers_ordered :
  date_lt DAY_1 DAY_2 = true ∧ date_lt DAY_2 DAY_3 = true ∧
  OrderedDict.iter DAY_NAMES = [DAY_1; DAY_2; DAY_3] ∧
  map snd DAY_NAMES = ["Day 1"; "Day 2"; "Day 3"]%string.
Proof. repeat split. Qed.

(** ** Ordering of the location codes *)

Section str_order.

Lemma ascii_compare_refl (a : ascii) : Ascii.compare a a = Eq.
Proof. apply N.compare_refl. Qed.

Lemma ascii_compare_lt_trans (a b c : ascii) :
  Ascii.compare a b = Lt → Ascii.compare b c = Lt → Ascii.compare a c = Lt.
Proof.
  unfold Ascii.compare. rewrite !N.compare_lt_iff. apply N.lt_trans.
Qed.

Lemma str_compare_lt_trans (s1 s2 s3 : string) :
  String.compare s1 s2 = Lt → String.compare s2 s3 = Lt →
  String.compare s1 s3 = Lt.
Proof.
  revert s2 s3.
  induction s1 as [|a s1 IH]; intros [|b s2] [|c s3]; simpl; try done.
  destruct (Ascii.compare a b) eqn:Hab; try done;
    destruct (Ascii.compare b c) eqn:Hbc; try done.
  - apply Ascii.compare_eq_iff in Hab, Hbc. subst.
    rewrite ascii_compare_refl. apply IH.
  - apply Ascii.compare_eq_iff in Hab. subst. by rewrite Hbc.
  - apply Ascii.compare_eq_iff in Hbc. subst. by rewrite Hab.
  - by rewrite (ascii_compare_lt_trans a b c).
Qed.

Lemma str_le_compare (s1 s2 : string) :
  Py.str_le s1 s2 ↔ String.compare s1 s2 ≠ Gt.
Proof.
  unfold Py.str_le, Py.str_lt, String.ltb.
  rewrite (String.compare_antisym s1 s2).
  destruct (String.compare s2 s1); simpl; split; congruence.
Qed.

Global Instance str_le_total : Total Py.str_le.
Proof.
  intros s1 s2. rewrite !str_le_compare, (String.compare_antisym s2 s1).
  destruct (String.compare s1 s2); simpl; auto.
Qed.

Global Instance str_le_trans : Transitive Py.str_le.
Proof.
  intros s1 s2 s3. rewrite !str_le_compare. intros H12 H23.
  destruct (String.compare s1 s2) eqn:E12; [| |done].
  - apply String.compare_eq_iff in E12. by subst.
  - destruct (String.compare s2 s3) eqn:E23; [| |done].
    + apply String.compare_eq_iff in E23. subst. by rewrite E12.
    + by rewrite (str_compare_lt_trans s1 s2 s3).
Qed.

Global Instance str_le_antisymm : AntiSymm (=) Py.str_le.
Proof.
  intros s1 s2. rewrite !str_le_compare, (String.compare_antisym s2 s1).
  destruct (String.compare s1 s2) eqn:E; simpl; try done.
  intros _ _. by apply String.compare_eq_iff.
Qed.

(** On a list of strings, [sorted] returns the one sorted
    rearrangement. *)
Lemma sorted_unique (l l' : list string) :
  l ≡ₚ l' → Sorted Py.str_le l' → Py.sorted l = l'.
Proof.
  intros Hp Hs. unfold Py.sorted.
  apply (Sorted_unique Py.str_le); [apply Sorted_merge_sort, _ | done |].
  by rewrite merge_sort_Permutation.
Qed.

End str_order.

(** C8: the numbering prefixes realise the documented priority: sorting
    the six codes as strings, from whatever order they are listed in,
    yields R3, ALL, R012, R0, R1, R2, each strictly before the next. *)
Theorem location_codes_sort_by_priority (l : list string) :
  l ≡ₚ Location.codes →
  Py.sorted l =
    [Location.R3; Location.ALL; Location.R012;
     Location.R0; Location.R1; Location.R2] ∧
  Py.str_lt Location.R3 Location.ALL = true ∧
  Py.str_lt Location.ALL Location.R012 = true ∧
  Py.str_lt Location.R012 Location.R0 = true ∧
  Py.str_lt Location.R0 Location.R1 = true ∧
  Py.str_lt Location.R1 Location.R2 = true.
Proof.
  intros Hp. split; [|by vm_compute].
  apply sorted_unique; [done|].
  repeat constructor.
Qed.

Lemma location_codes_sort_by_priority_witness :
  Py.sorted (map fst BaseEvent.LOCATION_CHOICES) =
    ["1-r3"; "2-all"; "3-r012"; "4-r0"; "5-r1"; "6-r2"]%string.
Proof.
  apply (location_codes_sort_by_priority (map fst BaseEvent.LOCATION_CHOICES)).
  symmetry.
  exact (Permutation_cons_append
           [Location.ALL; Location.R012; Location.R0; Location.R1; Location.R2]
           Location.R3).
Defined.

(** ** Ordering of [Time] records *)

Section time_order.

(** With two datetimes in the fields, [__lt__] is the comparison of
    the datetimes, raising exactly when that one does. *)
Lemma lt_on_datetimes (a b : Time.t) (da db : datetime) :
  Time.value a = VDatetime da → Time.value b = VDatetime db →
  Time.__lt__ a (Time.OfTime b) =
    Py.bind (datetime_lt da db) (fun r => Py.Ok (Py.PyBool r)).
Proof. intros Ha Hb. unfold Time.__lt__. by rewrite Ha, Hb. Qed.

Lemma eq_on_datetimes (a b : Time.t) (da db : datetime) :
  Time.value a = VDatetime da → Time.value b = VDatetime db →
  Time.__eq__ a (Time.OfTime b) = datetime_eq da db.
Proof. intros Ha Hb. unfold Time.__eq__. by rewrite Ha, Hb. Qed.

Lemma datetime_eq_true (da db : datetime) :
  datetime_eq da db = true ↔ da = db.
Proof.
  destruct da as [wa ia], db as [wb ib]. unfold datetime_eq. simpl.
  rewrite andb_true_iff, Bool.eqb_true_iff, Z.eqb_eq.
  split; [intros [-> ->]; done | intros [= -> ->]; done].
Qed.

End time_order.

Ltac time_cases :=
  repeat match goal with
         | d : datetime |- _ => destruct d as [[] ?]
         end;
  unfold datetime_lt, datetime_eq in *; simpl in *.

Ltac bool_arith :=
  repeat match goal with
         | H : Py.Ok _ = Py.Ok _ |- _ => injection H as H
         | H : Py.PyBool _ = Py.PyBool _ |- _ => injection H as H
         | H : Py.Raise _ = Py.Ok _ |- _ => discriminate H
         | H : _ && _ = true |- _ => apply andb_true_iff in H; destruct H
         | H : _ || _ = true |- _ => apply orb_true_iff in H
         | H : negb _ = true |- _ => apply negb_true_iff in H
         | H : (_ <? _) = true |- _ => apply Z.ltb_lt in H
         | H : (_ <? _) = false |- _ => apply Z.ltb_ge in H
         | H : (_ =? _) = true |- _ => apply Z.eqb_eq in H
         | H : (_ =? _) = false |- _ => apply Z.eqb_neq in H
         end.

Ltac order_finish :=
  repeat match goal with
         | H : _ ∨ _ |- _ => destruct H
         end;
  bool_arith; simplify_eq;
  repeat match goal with
         | |- context [?x <? ?y] => destruct (Z.ltb_spec x y)
         | |- context [?x =? ?y] => destruct (Z.eqb_spec x y)
         end;
  simpl;
  first [ done | lia | f_equal; lia | left; done | right; f_equal; lia ].

(** C2: for [Time] records that both hold a datetime, [a < b] is the
    comparison of the two datetimes, the derived [>], [<=] and [>=]
    order the records as their timestamps do, and the order is
    antisymmetric and transitive. *)
Theorem time_order_follows_timestamps
    (a b c : Time.t) (da db dc : datetime) :
  Time.value a = VDatetime da →
  Time.value b = VDatetime db →
  Time.value c = VDatetime dc →
  Time.__lt__ a (Time.OfTime b) =
    Py.bind (datetime_lt da db) (fun r => Py.Ok (Py.PyBool r)) ∧
  (Time.__lt__ a (Time.OfTime b) = Py.Ok (Py.PyBool true) ↔
     datetime_lt da db = Py.Ok true) ∧
  (Time.__gt__ a (Time.OfTime b) = Py.Ok (Py.PyBool true) ↔
     datetime_lt db da = Py.Ok true) ∧
  (Time.__le__ a (Time.OfTime b) = Py.Ok (Py.PyBool true) ↔
     datetime_lt da db = Py.Ok true ∨ da = db) ∧
  (Time.__ge__ a (Time.OfTime b) = Py.Ok (Py.PyBool true) ↔
     datetime_lt db da = Py.Ok true ∨ da = db) ∧
  (Time.__lt__ a (Time.OfTime b) = Py.Ok (Py.PyBool true) →
     Time.__lt__ b (Time.OfTime a) = Py.Ok (Py.PyBool false)) ∧
  (Time.__le__ a (Time.OfTime b) = Py.Ok (Py.PyBool true) →
   Time.__le__ b (Time.OfTime a) = Py.Ok (Py.PyBool true) →
     da = db) ∧
  (Time.__lt__ a (Time.OfTime b) = Py.Ok (Py.PyBool true) →
   Time.__lt__ b (Time.OfTime c) = Py.Ok (Py.PyBool true) →
     Time.__lt__ a (Time.OfTime c) = Py.Ok (Py.PyBool true)) ∧
  (Time.__le__ a (Time.OfTime b) = Py.Ok (Py.PyBool true) →
   Time.__le__ b (Time.OfTime c) = Py.Ok (Py.PyBool true) →
     Time.__le__ a (Time.OfTime c) = Py.Ok (Py.PyBool true)).
Proof.
  intros Ha Hb Hc.
  unfold Time.__gt__, Time.__le__, Time.__ge__.
  rewrite !(lt_on_datetimes a b da db), !(lt_on_datetimes b a db da),
    !(lt_on_datetimes b c db dc), !(lt_on_datetimes a c da dc),
    !(eq_on_datetimes a b da db), !(eq_on_datetimes b a db da),
    !(eq_on_datetimes b c db dc), !(eq_on_datetimes a c da dc) by done.
  clear Ha Hb Hc a b c.
  split; [done|].
  time_cases.
  all: repeat split; intros; order_finish.
Qed.

Lemma time_order_follows_timestamps_witness :
  let opening := Time.mk 1 (VDatetime (mk_datetime true 1464915600000000)) in
  let keynote := Time.mk 2 (VDatetime (mk_datetime true 1464917400000000)) in
  let lunch := Time.mk 3 (VDatetime (mk_datetime true 1464926400000000)) in
  Time.__lt__ opening (Time.OfTime keynote) = Py.Ok (Py.PyBool true) ∧
  Time.__lt__ keynote (Time.OfTime opening) = Py.Ok (Py.PyBool false) ∧
  Time.__lt__ opening (Time.OfTime lunch) = Py.Ok (Py.PyBool true).
Proof.
  intros opening keynote lunch.
  destruct (time_order_follows_timestamps opening keynote lunch
              (mk_datetime true 1464915600000000)
              (mk_datetime true 1464917400000000)
              (mk_datetime true 1464926400000000)
              eq_refl eq_refl eq_refl)
    as (_ & Hiff & _ & _ & _ & Hanti & _ & Htrans & _).
  assert (Time.__lt__ opening (Time.OfTime keynote) = Py.Ok (Py.PyBool true))
    as Hlt by (apply Hiff; reflexivity).
  split; [exact Hlt|]. split; [exact (Hanti Hlt)|].
  apply (Htrans Hlt). reflexivity.
Defined.

(** C3: when at least one of two [Time] records does not hold a
    datetime, each of the four ordering methods returns [NotImplemented]:
    it answers neither [True] nor [False], and it raises nothing. *)
Theorem time_order_not_implemented (a b : Time.t) :
  isinstance_datetime (Time.value a) = false ∨
  isinstance_datetime (Time.value b) = false →
  Time.__lt__ a (Time.OfTime b) = Py.Ok Py.NotImplemented ∧
  Time.__gt__ a (Time.OfTime b) = Py.Ok Py.NotImplemented ∧
  Time.__le__ a (Time.OfTime b) = Py.Ok Py.NotImplemented ∧
  Time.__ge__ a (Time.OfTime b) = Py.Ok Py.NotImplemented.
Proof.
  intros Hno.
  assert (Time.__lt__ a (Time.OfTime b) = Py.Ok Py.NotImplemented) as Hlt.
  { unfold Time.__lt__. destruct Hno as [-> | ->]; simpl; [done|].
    by rewrite orb_true_r. }
  unfold Time.__gt__, Time.__le__, Time.__ge__. by rewrite Hlt.
Qed.

Lemma time_order_not_implemented_witness :
  let placeholder := Time.mk 1 VNone in
  let keynote := Time.mk 2 (VDatetime (mk_datetime true 1464917400000000)) in
  Time.__lt__ placeholder (Time.OfTime keynote) = Py.Ok Py.NotImplemented ∧
  Time.__gt__ placeholder (Time.OfTime keynote) = Py.Ok Py.NotImplemented ∧
  Time.__le__ placeholder (Time.OfTime keynote) = Py.Ok Py.NotImplemented ∧
  Time.__ge__ placeholder (Time.OfTime keynote) = Py.Ok Py.NotImplemented.
Proof.
  intros placeholder keynote.
  apply (time_order_not_implemented placeholder keynote).
  left. reflexivity.
Defined.

(** ** Keynote URL *)

Section keynote_url.

Import urllib_parse.

Lemma split_scheme_rooted (url : string) :
  String.prefix "/" url = true → split_scheme url = (EmptyString, url).
Proof.
  destruct url as [|a u]; [done|]. cbn [String.prefix].
  destruct (Ascii.ascii_dec "/" a) as [<-|]; [|done]. intros _.
  unfold split_scheme.
  destruct (contains ":" (String "/" u)); [|done].
  simpl. by destruct (split1 ":" u).
Qed.

Lemma urlsplit_rooted (url : string) :
  rooted_path url → urlsplit url = Py.Ok (mk_split "" "" url "" "").
Proof.
  intros (Hroot & Hnet & Hq & Hf). unfold urlsplit.
  rewrite split_scheme_rooted by done. rewrite Hnet. simpl.
  by rewrite Hf, Hq.
Qed.

Lemma urlunsplit_path_fragment (url frag : string) :
  truthy frag = true →
  urlunsplit (mk_split "" "" url "" frag) = (url +:+ "#" +:+ frag)%string.
Proof. intros Hfrag. unfold urlunsplit. simpl. by rewrite Hfrag. Qed.

End keynote_url.

(** C6: [get_absolute_url] of a keynote is the URL of the route [page]
    at path [events/keynotes] followed by [#keynote-speaker-] and the
    slug; with the slug [liang2] it ends in [#keynote-speaker-liang2]. *)
Theorem keynote_url_is_page_with_fragment
    (reverse : string → list (string * string) → Py.result string)
    (self : KeynoteEvent.t) (url : string) :
  reverse "page"%string [("path", "events/keynotes")]%string = Py.Ok url →
  rooted_path url →
  KeynoteEvent.get_absolute_url reverse self =
    Py.Ok (url +:+ "#keynote-speaker-" +:+ KeynoteEvent.slug self)%string ∧
  (KeynoteEvent.slug self = "liang2"%string →
   KeynoteEvent.get_absolute_url reverse self =
     Py.Ok (url +:+ "#keynote-speaker-liang2")%string).
Proof.
  intros Hrev Hpath.
  assert (KeynoteEvent.get_absolute_url reverse self =
            Py.Ok (url +:+ "#keynote-speaker-" +:+ KeynoteEvent.slug self)%string)
    as Hurl.
  { unfold KeynoteEvent.get_absolute_url. rewrite Hrev. simpl.
    rewrite urlsplit_rooted by done. simpl.
    unfold urllib_parse.replace_fragment. simpl.
    by rewrite urlunsplit_path_fragment. }
  split; [done|]. intros Hslug. by rewrite Hurl, Hslug.
Qed.

Lemma keynote_url_is_page_with_fragment_witness :
  let reverse := fun (name : string) (kwargs : list (string * string)) =>
    match kwargs with
    | [(_, path)] => Py.Ok ("/en-us/" +:+ path +:+ "/")%string
    | _ => Py.Raise Py.ValueError
    end in
  let liang := KeynoteEvent.mk (Some Location.R0) None None "Liang" "liang2" in
  KeynoteEvent.get_absolute_url reverse liang =
    Py.Ok "/en-us/events/keynotes/#keynote-speaker-liang2"%string.
Proof.
  intros reverse liang.
  apply (keynote_url_is_page_with_fragment reverse liang
           "/en-us/events/keynotes/"%string).
  - reflexivity.
  - repeat split.
  - reflexivity.
Defined.

(** ** Proposals behind talk events *)

Section accepted_only.

Import ProposedTalkEvent.

Lemma limit_choices_accepted (p : TalkProposal.t) :
  forallb (fun kv => bool_decide (TalkProposal.flag (fst kv) p = Some (snd kv)))
          limit_choices_to = true
  ↔ TalkProposal.accepted p = true.
Proof.
  unfold limit_choices_to, TalkProposal.flag. simpl.
  rewrite andb_true_r, bool_decide_eq_true. split; congruence.
Qed.

Lemma validate_proposal_ok (proposals : list TalkProposal.t) (value : Z) :
  validate_proposal proposals value = Py.Ok tt ↔
  ∃ q, q ∈ proposals ∧ TalkProposal.pk q = value ∧
       TalkProposal.accepted q = true.
Proof.
  unfold validate_proposal.
  match goal with |- context [match ?l with _ => _ end] => remember l as qs eqn:Hqs end.
  assert (∀ q, q ∈ qs ↔ q ∈ proposals ∧ TalkProposal.pk q = value ∧
                         TalkProposal.accepted q = true) as Hin.
  { intros q. subst qs. rewrite !list_elem_of_filter, limit_choices_accepted.
    tauto. }
  destruct qs as [|q qs]; split.
  - done.
  - intros (q & Hq). apply Hin in Hq. by apply not_elem_of_nil in Hq.
  - intros _. exists q. apply Hin. left.
  - done.
Qed.

Lemma same_key_same_record (proposals : list TalkProposal.t)
    (p q : TalkProposal.t) :
  NoDup (TalkProposal.pk <$> proposals) → p ∈ proposals → q ∈ proposals →
  TalkProposal.pk p = TalkProposal.pk q → p = q.
Proof.
  induction proposals as [|x l IH]; simpl; intros Hnd Hp Hq Hpk.
  { by apply not_elem_of_nil in Hp. }
  apply NoDup_cons in Hnd as [Hx Hnd].
  apply elem_of_cons in Hp as [->|Hp]; apply elem_of_cons in Hq as [->|Hq];
    try done.
  - exfalso. apply Hx. rewrite Hpk. by apply list_elem_of_fmap_2.
  - exfalso. apply Hx. rewrite <- Hpk. by apply list_elem_of_fmap_2.
  - by apply IH.
Qed.

End accepted_only.

(** C4: with primary keys unique, validating a [proposal] key that
    refers to a proposal whose [accepted] flag is [False] raises a
    validation error, and the keys that pass validation are exactly
    those of accepted proposals. *)
Theorem only_accepted_proposals_assignable
    (proposals : list TalkProposal.t) (p : TalkProposal.t) :
  NoDup (TalkProposal.pk <$> proposals) →
  p ∈ proposals →
  (TalkProposal.accepted p = false →
     ProposedTalkEvent.validate_proposal proposals (TalkProposal.pk p) =
       Py.Raise Py.ValidationError) ∧
  (TalkProposal.accepted p = true →
     ProposedTalkEvent.validate_proposal proposals (TalkProposal.pk p) =
       Py.Ok tt) ∧
  (∀ value,
     ProposedTalkEvent.validate_proposal proposals value = Py.Ok tt →
     ∃ q, q ∈ proposals ∧ TalkProposal.pk q = value ∧
          TalkProposal.accepted q = true).
Proof.
  intros Hnd Hp. split; [|split].
  - intros Hrej.
    destruct (ProposedTalkEvent.validate_proposal proposals (TalkProposal.pk p))
      as [[]|e] eqn:Hv.
    + apply validate_proposal_ok in Hv as (q & Hq & Hpk & Hacc).
      assert (q = p) by (by apply (same_key_same_record proposals)).
      congruence.
    + unfold ProposedTalkEvent.validate_proposal in Hv.
      destruct (filter _ (filter _ proposals)); congruence.
  - intros Hacc. apply validate_proposal_ok. by exists p.
  - intros value. apply validate_proposal_ok.
Qed.

Lemma only_accepted_proposals_assignable_witness :
  let rejected := TalkProposal.mk 7 "Type hints in anger" false in
  let accepted := TalkProposal.mk 9 "Inside the import system" true in
  ProposedTalkEvent.validate_proposal [rejected; accepted] 7 =
    Py.Raise Py.ValidationError.
Proof.
  intros rejected accepted.
  apply (only_accepted_proposals_assignable [rejected; accepted] rejected).
  - apply (bool_decide_unpack _). vm_compute. exact I.
  - left.
  - reflexivity.
Defined.

(** ** Queries behind a list of talk events *)

Section batch_fetch.

Import ProposedTalkEvent.

Variable proposals : list TalkProposal.t.

Lemma str_cached (e : t) (p : TalkProposal.t) (n : nat) :
  proposal_cache e = Some p →
  __str__ proposals e n = (Py.Ok (TalkProposal.title p), n).
Proof. intros Hc. unfold __str__, proposal, Db.bind. by rewrite Hc. Qed.

Lemma str_uncached (e : t) (p : TalkProposal.t) (n : nat) :
  proposal_cache e = None →
  TalkProposal.get proposals (proposal_id (fields e)) = Py.Ok p →
  __str__ proposals e n = (Py.Ok (TalkProposal.title p), S n).
Proof.
  intros Hc Hget. unfold __str__, proposal, Db.bind, Db.query.
  by rewrite Hc, Hget.
Qed.

(** Reading the titles of instances that carry their proposal sends
    no query. *)
Lemma titles_cached (es : list t) (n : nat) :
  Forall (fun e => is_Some (proposal_cache e)) es →
  ∃ titles, Db.for_each (__str__ proposals) es n = (Py.Ok titles, n) ∧
            length titles = length es.
Proof.
  induction 1 as [|e es [p He] _ (titles & IH & Hlen)]; simpl.
  - by exists [].
  - exists (TalkProposal.title p :: titles). unfold Db.bind at 1.
    rewrite (str_cached e p n He). unfold Db.bind, Db.ret. rewrite IH.
    split; [done | simpl; by rewrite Hlen].
Qed.

(** Reading them from instances that do not sends one query each. *)
Lemma titles_uncached (es : list t) (n : nat) :
  Forall (fun e => proposal_cache e = None ∧
                   Py.returns (TalkProposal.get proposals (proposal_id (fields e))))
         es →
  ∃ titles, Db.for_each (__str__ proposals) es n =
              (Py.Ok titles, (n + length es)%nat).
Proof.
  intros Hes. revert n.
  induction Hes as [|e es [He [p Hp]] _ IH]; intros n; simpl.
  - exists []. unfold Db.ret. by rewrite Nat.add_0_r.
  - destruct (IH (S n)) as (titles & Htitles).
    exists (TalkProposal.title p :: titles). unfold Db.bind at 1.
    rewrite (str_uncached e p n He Hp). unfold Db.bind, Db.ret.
    rewrite Htitles. f_equal. lia.
Qed.

Lemma load_joined (rs : list row) :
  Forall (fun e => is_Some (proposal_cache e)) (omap (load proposals true) rs).
Proof.
  apply Forall_forall. intros e He.
  apply list_elem_of_omap in He as (r & _ & Hload).
  unfold load in Hload. destruct (filter _ proposals); [done|].
  injection Hload as <-. by eexists.
Qed.

Lemma load_plain (rs : list row) :
  omap (load proposals false) rs = (fun r => mk r None) <$> rs.
Proof.
  induction rs as [|r rs IH]; [done|].
  change (mk r None :: omap (load proposals false) rs =
          mk r None :: ((fun r => mk r None) <$> rs)).
  by rewrite IH.
Qed.

End batch_fetch.

(** C9: the query set of the default manager always joins the proposal,
    so does every query set built from it, and loading any selection of
    talk events through it and then reading each title sends exactly one
    query, however many rows come back. *)
Theorem default_manager_joins_proposal
    (proposals : list TalkProposal.t) (events : list ProposedTalkEvent.row)
    (p : ProposedTalkEvent.row → bool) (n : nat) :
  "proposal"%string ∈
    ProposedTalkEvent.qs_select_related ProposedTalkEventManager.get_queryset ∧
  "proposal"%string ∈
    ProposedTalkEvent.qs_select_related ProposedTalkEventManager.all ∧
  "proposal"%string ∈
    ProposedTalkEvent.qs_select_related (ProposedTalkEventManager.filter p) ∧
  ∃ titles,
    Db.bind (ProposedTalkEvent.fetch proposals events
               (ProposedTalkEventManager.filter p))
            (Db.for_each (ProposedTalkEvent.__str__ proposals)) n =
      (Py.Ok titles, S n).
Proof.
  assert (∀ q, "proposal"%string ∈ ProposedTalkEvent.qs_select_related
                 (ProposedTalkEventManager.filter q)) as Hsel.
  { intros q. simpl. set_solver. }
  repeat split; [simpl; set_solver.. |].
  unfold Db.bind, ProposedTalkEvent.fetch, Db.query.
  rewrite (bool_decide_eq_true_2 _ (Hsel p)).
  destruct (titles_cached proposals _ (S n)
              (load_joined proposals
                 (base.filter (fun r =>
                    ProposedTalkEvent.qs_where
                      (ProposedTalkEventManager.filter p) r = true) events)))
    as (titles & Htitles & _).
  by exists titles.
Qed.

(** For contrast: through the plain manager the same reading sends one
    query for the rows and one more for each row. *)
Lemma plain_manager_queries_per_row
    (proposals : list TalkProposal.t) (events : list ProposedTalkEvent.row)
    (n : nat) :
  Forall (fun r => Py.returns
            (TalkProposal.get proposals (ProposedTalkEvent.proposal_id r)))
         events →
  ∃ titles,
    Db.bind (ProposedTalkEvent.fetch proposals events Manager.get_queryset)
            (Db.for_each (ProposedTalkEvent.__str__ proposals)) n =
      (Py.Ok titles, (S n + length events)%nat).
Proof.
  intros Hev.
  unfold Db.bind, ProposedTalkEvent.fetch, Db.query. simpl.
  rewrite load_plain.
  assert (base.filter (fun _ : ProposedTalkEvent.row => true = true) events
          = events) as ->.
  { clear Hev. induction events as [|r rs IH]; [done|].
    rewrite filter_cons_True by done. by rewrite IH. }
  destruct (titles_uncached proposals
              ((fun r => ProposedTalkEvent.mk r None) <$> events) (S n))
    as (titles & Htitles).
  { apply Forall_fmap. eapply Forall_impl; [exact Hev|]. by intros r Hr. }
  exists titles. by rewrite Htitles, length_fmap.
Qed.

(** ** Order of the schedule snapshots *)

Section schedule_order.

Import Schedule.

Global Instance row_le_total (keys : list sort_key) : Total (row_le keys).
Proof.
  unfold Total, row_le. induction keys as [|k keys IH]; intros a b; simpl.
  { by left. }
  rewrite (Z.eqb_sym (column k b) (column k a)).
  destruct (Z.eqb_spec (column k a) (column k b)); [apply IH|].
  destruct (descending k); rewrite !Z.ltb_lt; lia.
Qed.

Global Instance row_le_trans (keys : list sort_key) : Transitive (row_le keys).
Proof.
  unfold Transitive, row_le.
  induction keys as [|k keys IH]; intros a b c; simpl; [done|].
  destruct (Z.eqb_spec (column k a) (column k b)) as [Hab|Hab],
           (Z.eqb_spec (column k b) (column k c)) as [Hbc|Hbc],
           (Z.eqb_spec (column k a) (column k c)) as [Hac|Hac];
    try lia; try apply IH; destruct (descending k); rewrite ?Z.ltb_lt; lia.
Qed.

Lemma ordering_newest_first (a b : t) :
  row_le [mk_key true created_at] a b ↔ newest_first a b.
Proof.
  unfold row_le, newest_first. simpl.
  destruct (Z.eqb_spec (created_at a) (created_at b)); [lia|].
  rewrite Z.ltb_lt. lia.
Qed.

Lemma StronglySorted_newest_first (l : list t) :
  StronglySorted (row_le [mk_key true created_at]) l →
  StronglySorted newest_first l.
Proof.
  induction 1 as [|r l _ IH Hr]; constructor; [done|].
  eapply Forall_impl; [exact Hr|]. intros r'. apply ordering_newest_first.
Qed.

Lemma order_by_created_at (rows : list t) :
  ∃ ordered, order_by ["-created_at"]%string rows = Py.Ok ordered ∧
             ordered ≡ₚ rows ∧ StronglySorted newest_first ordered.
Proof.
  exists (merge_sort (row_le [mk_key true created_at]) rows).
  split; [done|]. split; [apply merge_sort_Permutation|].
  apply StronglySorted_newest_first, StronglySorted_merge_sort; apply _.
Qed.

End schedule_order.

(** C5: read in the default order, the schedule rows come back as a
    rearrangement of the table sorted by [created_at] descending; on a
    table with at least one row [latest()] returns a row of the table
    whose [created_at] no other row exceeds, and on an empty table it
    raises [DoesNotExist]. *)
Theorem schedule_default_order_and_latest (rows : list Schedule.t) :
  (∃ ordered, Schedule.all rows = Py.Ok ordered ∧ ordered ≡ₚ rows ∧
              StronglySorted
                (fun a b => Schedule.created_at b ≤ Schedule.created_at a)
                ordered) ∧
  (rows ≠ [] →
     ∃ r, Schedule.latest rows = Py.Ok r ∧ r ∈ rows ∧
          ∀ r', r' ∈ rows → Schedule.created_at r' ≤ Schedule.created_at r) ∧
  (rows = [] → Schedule.latest rows = Py.Raise Py.DoesNotExist).
Proof.
  split; [apply order_by_created_at|]. split.
  - intros Hne.
    destruct (order_by_created_at rows) as (ordered & Hord & Hperm & Hsorted).
    unfold Schedule.latest.
    change ("-" +:+ Schedule.Meta.get_latest_by)%string
      with "-created_at"%string.
    rewrite Hord. simpl.
    destruct ordered as [|r rest].
    { apply Permutation_nil_l in Hperm. by subst. }
    exists r. split; [done|]. split.
    + rewrite <- Hperm. left.
    + intros r' Hr'. rewrite <- Hperm in Hr'.
      apply StronglySorted_inv in Hsorted as [_ Hall].
      apply elem_of_cons in Hr' as [->|Hr']; [lia|].
      rewrite Forall_forall in Hall. by apply Hall.
  - intros ->. reflexivity.
Qed.

Lemma schedule_default_order_and_latest_witness :
  let draft := Schedule.mk 1 "<table>draft</table>" 1464739200000000 in
  let final := Schedule.mk 2 "<table>final</table>" 1464825600000000 in
  ∃ r, Schedule.latest [draft; final] = Py.Ok r ∧ r ∈ [draft; final] ∧
       ∀ r', r' ∈ [draft; final] →
             Schedule.created_at r' ≤ Schedule.created_at r.
Proof.
  intros draft final.
  apply (schedule_default_order_and_latest [draft; final]).
  discriminate.
Defined.

(** * Further properties *)

(** ** Outcomes of the [Time] comparisons *)

Ltac outcome_cases :=
  repeat match goal with
         | H : ∃ _, _ |- _ => destruct H as [? H]
         | H : _ ∧ _ |- _ => destruct H as [? H]
         | H : ∀ o, Time.OfTime ?x = Time.OfTime o → _ |- _ =>
             specialize (H x eq_refl); simpl in H; destruct H
         end;
  simplify_eq/=;
  first [ done
        | by auto
        | by eexists _, _, _; repeat split; eauto; simpl; congruence ].

(** X1: [__lt__] has three outcomes and each has one cause.  It returns
    [NotImplemented] exactly when the other operand is not a [Time] or
    one of the two values is not a datetime; it returns a boolean
    exactly when both values are datetimes of the same awareness, and
    then the boolean compares the instants; it raises exactly when both
    are datetimes of different awareness, and then it is [TypeError]. *)
Theorem time_lt_outcomes (self : Time.t) (other : Time.operand) :
  (Time.__lt__ self other = Py.Ok Py.NotImplemented ↔
     ∀ o, other = Time.OfTime o →
          isinstance_datetime (Time.value self) = false ∨
          isinstance_datetime (Time.value o) = false) ∧
  (∀ b, Time.__lt__ self other = Py.Ok (Py.PyBool b) ↔
     ∃ o da db, other = Time.OfTime o ∧
       Time.value self = VDatetime da ∧ Time.value o = VDatetime db ∧
       aware da = aware db ∧ b = (instant da <? instant db)) ∧
  (∀ e, Time.__lt__ self other = Py.Raise e ↔
     e = Py.TypeError ∧
     ∃ o da db, other = Time.OfTime o ∧
       Time.value self = VDatetime da ∧ Time.value o = VDatetime db ∧
       aware da ≠ aware db).
Proof.
  destruct other as [o|v]; unfold Time.__lt__.
  2:{ repeat split; intros; outcome_cases. }
  destruct self as [i vs], o as [j vo]; simpl.
  destruct vs as [| | |[[] ia]], vo as [| | |[[] ib]];
    unfold datetime_lt; simpl; repeat split; intros; outcome_cases.
Qed.

Ltac instants_cases :=
  repeat match goal with
         | |- context [?x <? ?y] => destruct (Z.ltb_spec x y)
         | |- context [?x =? ?y] => destruct (Z.eqb_spec x y)
         end;
  simpl; try lia; auto.

(** X2: on two [Time] records holding datetimes of the same awareness
    the comparisons form a total order: exactly one of [a < b],
    [a == b], [a > b] is true, [<=] is the negation of [>], [>=] the
    negation of [<], and [a > b], [a >= b] answer as [b < a], [b <= a]. *)
Theorem time_order_trichotomy (a b : Time.t) (da db : datetime) :
  Time.value a = VDatetime da →
  Time.value b = VDatetime db →
  aware da = aware db →
  ∃ lt eq gt : bool,
    Time.__lt__ a (Time.OfTime b) = Py.Ok (Py.PyBool lt) ∧
    Time.__eq__ a (Time.OfTime b) = eq ∧
    Time.__gt__ a (Time.OfTime b) = Py.Ok (Py.PyBool gt) ∧
    ((lt = true ∧ eq = false ∧ gt = false) ∨
     (lt = false ∧ eq = true ∧ gt = false) ∨
     (lt = false ∧ eq = false ∧ gt = true)) ∧
    Time.__le__ a (Time.OfTime b) = Py.Ok (Py.PyBool (negb gt)) ∧
    Time.__ge__ a (Time.OfTime b) = Py.Ok (Py.PyBool (negb lt)) ∧
    Time.__gt__ a (Time.OfTime b) = Time.__lt__ b (Time.OfTime a) ∧
    Time.__ge__ a (Time.OfTime b) = Time.__le__ b (Time.OfTime a).
Proof.
  intros Ha Hb Haware.
  unfold Time.__gt__, Time.__le__, Time.__ge__.
  rewrite (lt_on_datetimes a b da db), (lt_on_datetimes b a db da),
    (eq_on_datetimes a b da db), (eq_on_datetimes b a db da) by done.
  destruct da as [wa ia], db as [wb ib]. simpl in Haware. subst wb.
  unfold datetime_lt, datetime_eq. simpl.
  rewrite Bool.eqb_reflx. simpl.
  exists (ia <? ib), (ia =? ib), (negb (ia <? ib) && negb (ia =? ib)).
  repeat split; instants_cases.
Qed.

Lemma time_order_trichotomy_witness :
  let opening := Time.mk 1 (VDatetime (mk_datetime true 1464915600000000)) in
  let keynote := Time.mk 2 (VDatetime (mk_datetime true 1464917400000000)) in
  Time.__ge__ keynote (Time.OfTime opening) =
    Time.__le__ opening (Time.OfTime keynote).
Proof.
  intros opening keynote.
  destruct (time_order_trichotomy keynote opening
              (mk_datetime true 1464917400000000)
              (mk_datetime true 1464915600000000)
              eq_refl eq_refl eq_refl)
    as (lt & eq & gt & _ & _ & _ & _ & _ & _ & _ & Hmirror).
  exact Hmirror.
Defined.

(** X3: when two [Time] records hold datetimes of different awareness,
    one naive and one aware, every ordering method raises [TypeError]
    rather than returning [NotImplemented], while [==] answers
    [False]. *)
Theorem time_order_mixed_awareness (a b : Time.t) (da db : datetime) :
  Time.value a = VDatetime da →
  Time.value b = VDatetime db →
  aware da ≠ aware db →
  Time.__lt__ a (Time.OfTime b) = Py.Raise Py.TypeError ∧
  Time.__gt__ a (Time.OfTime b) = Py.Raise Py.TypeError ∧
  Time.__le__ a (Time.OfTime b) = Py.Raise Py.TypeError ∧
  Time.__ge__ a (Time.OfTime b) = Py.Raise Py.TypeError ∧
  Time.__eq__ a (Time.OfTime b) = false.
Proof.
  intros Ha Hb Haware.
  unfold Time.__gt__, Time.__le__, Time.__ge__.
  rewrite (lt_on_datetimes a b da db), (eq_on_datetimes a b da db) by done.
  unfold datetime_lt, datetime_eq.
  destruct da as [[] ia], db as [[] ib]; simpl in *; done.
Qed.

Lemma time_order_mixed_awareness_witness :
  let typed := Time.mk 1 (VDatetime (mk_datetime false 1464915600000000)) in
  let stored := Time.mk 2 (VDatetime (mk_datetime true 1464915600000000)) in
  Time.__lt__ typed (Time.OfTime stored) = Py.Raise Py.TypeError ∧
  Time.__gt__ typed (Time.OfTime stored) = Py.Raise Py.TypeError ∧
  Time.__le__ typed (Time.OfTime stored) = Py.Raise Py.TypeError ∧
  Time.__ge__ typed (Time.OfTime stored) = Py.Raise Py.TypeError ∧
  Time.__eq__ typed (Time.OfTime stored) = false.
Proof.
  intros typed stored.
  apply (time_order_mixed_awareness typed stored
           (mk_datetime false 1464915600000000)
           (mk_datetime true 1464915600000000)); [reflexivity..|].
  simpl. discriminate.
Defined.

(** ** Locations a stored event can carry *)

Section location_field.

Lemma choice_is_code (s : string) :
  s ∈ map fst BaseEvent.LOCATION_CHOICES ↔ s ∈ Location.codes.
Proof.
  unfold BaseEvent.LOCATION_CHOICES, Location.codes. simpl.
  rewrite !elem_of_cons. rewrite !elem_of_nil. tauto.
Qed.

Lemma clean_location_code (s : string) :
  s ∈ Location.codes →
  BaseEvent.clean_location (Some s) = Py.Ok (Some s) ∧
  ∃ w, Location.get_md_width s = Py.Ok w.
Proof.
  unfold Location.codes. rewrite !elem_of_cons, elem_of_nil.
  intros [->|[->|[->|[->|[->|[->|[]]]]]]]; split;
    solve [ reflexivity | eexists; vm_compute; reflexivity ].
Qed.

Lemma clean_location_other (a : ascii) (s : string) :
  String a s ∉ Location.codes →
  BaseEvent.clean_location (Some (String a s)) = Py.Raise Py.ValidationError.
Proof.
  intros Hout. unfold BaseEvent.clean_location.
  rewrite bool_decide_eq_false_2; [done|]. by rewrite choice_is_code.
Qed.

End location_field.

(** X5: [get_md_width] returns on exactly the codes that
    [LOCATION_CHOICES] offers: every choice has a width, and every key
    of the width table is a choice. *)
Theorem width_defined_iff_choice (value : string) :
  Py.returns (Location.get_md_width value) ↔
  value ∈ map fst BaseEvent.LOCATION_CHOICES.
Proof.
  rewrite choice_is_code. split.
  - intros [w Hw]. destruct (decide (value ∈ Location.codes)); [done|].
    rewrite get_md_width_unknown in Hw by done. discriminate.
  - intros Hin. by apply clean_location_code.
Qed.

(** X6: cleaning the [location] field accepts the empty string and the
    six codes and rejects every other string; the length limit never
    rejects a choice.  Among the accepted strings only the empty one,
    which [blank=True] lets through, has no width: on it
    [get_md_width] raises [KeyError]. *)
Theorem location_clean_and_width (s : string) :
  (Py.returns (BaseEvent.clean_location (Some s)) ↔
     s = EmptyString ∨ s ∈ Location.codes) ∧
  (¬ Py.returns (BaseEvent.clean_location (Some s)) →
     BaseEvent.clean_location (Some s) = Py.Raise Py.ValidationError) ∧
  (Py.returns (BaseEvent.clean_location (Some s)) →
     BaseEvent.clean_location (Some s) = Py.Ok (Some s) ∧
     (Location.get_md_width s = Py.Raise (Py.KeyError s) ↔ s = EmptyString)).
Proof.
  destruct s as [|a s].
  { repeat split; try done; try (by left); try (by eexists).
    intros Hno. exfalso. apply Hno. by eexists. }
  destruct (decide (String a s ∈ Location.codes)) as [Hin|Hout].
  - destruct (clean_location_code _ Hin) as [Hclean [w Hw]].
    rewrite Hclean, Hw. split; [|split].
    + split; [by right | by eexists].
    + intros Hno. exfalso. apply Hno. by eexists.
    + intros _. done.
  - rewrite (clean_location_other a s Hout). split; [|split].
    + split; [by intros [? ?] | by intros [|]].
    + done.
    + by intros [? ?].
Qed.

Lemma location_clean_and_width_witness :
  BaseEvent.clean_location (Some "3-r012"%string) =
    Py.Ok (Some "3-r012"%string) ∧
  BaseEvent.clean_location (Some "lobby"%string) =
    Py.Raise Py.ValidationError ∧
  Location.get_md_width ""%string = Py.Raise (Py.KeyError ""%string).
Proof.
  split; [|split].
  - apply (location_clean_and_width "3-r012"%string). by eexists.
  - apply (location_clean_and_width "lobby"%string). by intros [? ?].
  - apply (location_clean_and_width ""%string); [by eexists | done].
Defined.

(** The [location] field lets the empty string through ([blank=True]),
    and on the empty string [get_md_width] raises [KeyError]: a
    location that passes validation and has no width. *)
Lemma blank_location_without_width :
  BaseEvent.clean_location (Some ""%string) = Py.Ok (Some ""%string) ∧
  Location.get_md_width ""%string = Py.Raise (Py.KeyError ""%string) ∧
  ¬ (∀ v, Py.returns (BaseEvent.clean_location (Some v)) →
          Py.returns (Location.get_md_width v)).
Proof.
  split; [reflexivity|]. split; [reflexivity|].
  intros Hall. destruct (Hall ""%string) as [w Hw]; [by eexists|].
  discriminate Hw.
Qed.

(** C10: every code offered by [LOCATION_CHOICES] has a width and is at
    most 6 characters long, the [max_length] of the field; and a
    location string that passes the field's validation and is not
    empty is one of these codes, so on it [get_md_width] returns and
    the [KeyError] branch is not reached. *)
Theorem stored_location_has_width (s : string) :
  Py.returns (BaseEvent.clean_location (Some s)) →
  s ≠ EmptyString →
  Forall (fun c => Py.returns (Location.get_md_width c) ∧
                   Py.len c ≤ BaseEvent.location_max_length)
         (map fst BaseEvent.LOCATION_CHOICES) ∧
  s ∈ map fst BaseEvent.LOCATION_CHOICES ∧
  Py.returns (Location.get_md_width s) ∧
  Py.len s ≤ BaseEvent.location_max_length.
Proof.
  intros Hclean Hne. split; [exact location_choices_covered|].
  destruct s as [|a s]; [done|].
  destruct (decide (String a s ∈ Location.codes)) as [Hin|Hout].
  - apply choice_is_code in Hin. split; [done|].
    pose proof location_choices_covered as Hall.
    rewrite Forall_forall in Hall. by apply Hall.
  - rewrite (clean_location_other a s Hout) in Hclean.
    by destruct Hclean.
Qed.

Lemma stored_location_has_width_witness :
  Py.returns (Location.get_md_width "2-all"%string) ∧
  Py.len "2-all"%string ≤ BaseEvent.location_max_length.
Proof.
  apply (stored_location_has_width "2-all"%string).
  - by eexists.
  - discriminate.
Defined.

(** ** More on the keynote URL *)

Section keynote_url_parts.

Import urllib_parse.

Lemma append_inj_l (s a b : string) : (s +:+ a = s +:+ b)%string → a = b.
Proof. induction s as [|c s IH]; simpl; [done|]. intros [= H]. by apply IH. Qed.

Lemma contains_append (c : ascii) (s t : string) :
  contains c (s +:+ t) = contains c s || contains c t.
Proof.
  induction s as [|a s IH]; simpl; [done|]. by rewrite IH, orb_assoc.
Qed.

Lemma contains_cons_same (c : ascii) (t : string) : contains c (String c t) = true.
Proof. simpl. by rewrite Ascii.eqb_refl. Qed.

(** Splitting at the first [c] undoes joining with [c], when the left
    part has no [c]. *)
Lemma split1_append (c : ascii) (s t : string) :
  contains c s = false → split1 c (s +:+ String c t) = (s, t).
Proof.
  induction s as [|a s IH]; simpl.
  - intros _. by rewrite Ascii.eqb_refl.
  - intros H. apply orb_false_iff in H as [Ha Hs]. by rewrite Ha, IH.
Qed.

Lemma rooted_append (url : string) (c : ascii) (t : string) :
  rooted_path url → c ≠ "/"%char →
  String.prefix "/" (url +:+ String c t) = true ∧
  String.prefix "//" (url +:+ String c t) = false.
Proof.
  intros (Hroot & Hnet & _) Hc.
  destruct url as [|a u]; [done|].
  cbn [String.prefix] in Hroot.
  destruct (Ascii.ascii_dec "/" a) as [Ha|]; [subst a | done].
  clear Hroot.
  change (String "/" u +:+ String c t)%string
    with (String "/" (u +:+ String c t))%string.
  split.
  - cbn [String.prefix].
    destruct (Ascii.ascii_dec "/" "/"); [|done].
    by destruct (u +:+ String c t)%string.
  - destruct u as [|b u].
    + change (String "/" ("" +:+ String c t))%string
        with (String "/" (String c t)).
      cbn [String.prefix].
      destruct (Ascii.ascii_dec "/" "/"); [|done].
      destruct (Ascii.ascii_dec "/" c) as [Heq|]; [by subst c | done].
    + change (String "/" (String b u +:+ String c t))%string
        with (String "/" (String b (u +:+ String c t)))%string.
      cbn [String.prefix] in *.
      destruct (Ascii.ascii_dec "/" "/"); [|done].
      destruct (Ascii.ascii_dec "/" b); [|done]. by destruct u.
Qed.

(** A rooted path followed by [#] and a fragment splits into the two. *)
Lemma urlsplit_path_fragment (url frag : string) :
  rooted_path url →
  urlsplit (url +:+ "#" +:+ frag) = Py.Ok (mk_split "" "" url "" frag).
Proof.
  intros Hpath.
  destruct (rooted_append url "#" frag Hpath) as [Hroot Hnet]; [done|].
  destruct Hpath as (_ & _ & Hq & Hf).
  unfold urlsplit. rewrite split_scheme_rooted by done.
  change (url +:+ "#" +:+ frag)%string with (url +:+ String "#" frag)%string.
  rewrite Hnet. simpl.
  rewrite contains_append, contains_cons_same, orb_true_r.
  rewrite split1_append by done. by rewrite Hq.
Qed.

(** A rooted path followed by [?] and a query splits into the two. *)
Lemma urlsplit_path_query (url q : string) :
  rooted_path url → contains "#" q = false →
  urlsplit (url +:+ "?" +:+ q) = Py.Ok (mk_split "" "" url q "").
Proof.
  intros Hpath Hq.
  destruct (rooted_append url "?" q Hpath) as [Hroot Hnet]; [done|].
  destruct Hpath as (_ & _ & Hquery & Hf).
  unfold urlsplit. rewrite split_scheme_rooted by done.
  change (url +:+ "?" +:+ q)%string with (url +:+ String "?" q)%string.
  rewrite Hnet. simpl.
  rewrite contains_append, Hf. simpl. rewrite Hq.
  rewrite contains_append, contains_cons_same, orb_true_r.
  by rewrite split1_append.
Qed.

(** The URL of a keynote whose page URL is a rooted path. *)
Lemma keynote_url_rooted
    (reverse : string → list (string * string) → Py.result string)
    (self : KeynoteEvent.t) (url : string) :
  reverse "page"%string [("path", "events/keynotes")]%string = Py.Ok url →
  rooted_path url →
  KeynoteEvent.get_absolute_url reverse self =
    Py.Ok (url +:+ "#" +:+ "keynote-speaker-" +:+ KeynoteEvent.slug self)%string.
Proof.
  intros Hrev Hpath. unfold KeynoteEvent.get_absolute_url.
  rewrite Hrev. simpl. rewrite urlsplit_rooted by done. simpl.
  unfold replace_fragment. simpl. by rewrite urlunsplit_path_fragment.
Qed.

End keynote_url_parts.

(** X7: on one keynotes page, keynotes with different slugs get
    different URLs. *)
Theorem keynote_url_injective
    (reverse : string → list (string * string) → Py.result string)
    (e1 e2 : KeynoteEvent.t) (url : string) :
  reverse "page"%string [("path", "events/keynotes")]%string = Py.Ok url →
  rooted_path url →
  KeynoteEvent.get_absolute_url reverse e1 =
    KeynoteEvent.get_absolute_url reverse e2 →
  KeynoteEvent.slug e1 = KeynoteEvent.slug e2.
Proof.
  intros Hrev Hpath.
  rewrite !(keynote_url_rooted reverse _ url) by done.
  intros [= Heq]. apply append_inj_l in Heq.
  injection Heq as Heq. exact Heq.
Qed.

Lemma keynote_url_injective_witness :
  let reverse := fun (name : string) (kwargs : list (string * string)) =>
    match kwargs with
    | [(_, path)] => Py.Ok ("/en-us/" +:+ path +:+ "/")%string
    | _ => Py.Raise Py.ValueError
    end in
  let liang := KeynoteEvent.mk (Some Location.R0) None None "Liang" "liang2" in
  let again := KeynoteEvent.mk (Some Location.R3) None None "L. B." "liang2" in
  KeynoteEvent.slug liang = KeynoteEvent.slug again.
Proof.
  intros reverse liang again.
  apply (keynote_url_injective reverse liang again
           "/en-us/events/keynotes/"%string).
  - reflexivity.
  - repeat split.
  - reflexivity.
Defined.

(** X8: splitting the URL of a keynote gives back the page path and the
    fragment [keynote-speaker-] followed by the slug, whatever
    characters the slug holds. *)
Theorem keynote_url_round_trip
    (reverse : string → list (string * string) → Py.result string)
    (self : KeynoteEvent.t) (url : string) :
  reverse "page"%string [("path", "events/keynotes")]%string = Py.Ok url →
  rooted_path url →
  Py.bind (KeynoteEvent.get_absolute_url reverse self) urllib_parse.urlsplit =
    Py.Ok (urllib_parse.mk_split "" "" url ""
             ("keynote-speaker-" +:+ KeynoteEvent.slug self)).
Proof.
  intros Hrev Hpath.
  rewrite (keynote_url_rooted reverse self url) by done. simpl.
  by apply urlsplit_path_fragment.
Qed.

Lemma keynote_url_round_trip_witness :
  let reverse := fun (name : string) (kwargs : list (string * string)) =>
    match kwargs with
    | [(_, path)] => Py.Ok ("/en-us/" +:+ path +:+ "/")%string
    | _ => Py.Raise Py.ValueError
    end in
  let odd := KeynoteEvent.mk None None None "Odd" "a#b?c" in
  Py.bind (KeynoteEvent.get_absolute_url reverse odd) urllib_parse.urlsplit =
    Py.Ok (urllib_parse.mk_split "" "" "/en-us/events/keynotes/" ""
             "keynote-speaker-a#b?c").
Proof.
  intros reverse odd.
  apply (keynote_url_round_trip reverse odd "/en-us/events/keynotes/"%string).
  - reflexivity.
  - repeat split.
Defined.

(** X9: a fragment the page URL already carries is replaced by the
    keynote fragment, not kept and not added to. *)
Theorem keynote_url_replaces_fragment
    (reverse : string → list (string * string) → Py.result string)
    (self : KeynoteEvent.t) (page old : string) :
  reverse "page"%string [("path", "events/keynotes")]%string =
    Py.Ok (page +:+ "#" +:+ old)%string →
  rooted_path page →
  KeynoteEvent.get_absolute_url reverse self =
    Py.Ok (page +:+ "#" +:+ "keynote-speaker-" +:+ KeynoteEvent.slug self)%string.
Proof.
  intros Hrev Hpath. unfold KeynoteEvent.get_absolute_url.
  rewrite Hrev. simpl. rewrite urlsplit_path_fragment by done. simpl.
  unfold urllib_parse.replace_fragment. simpl.
  by rewrite urlunsplit_path_fragment.
Qed.

Lemma keynote_url_replaces_fragment_witness :
  let reverse := fun (name : string) (kwargs : list (string * string)) =>
    match kwargs with
    | [(_, path)] => Py.Ok ("/en-us/" +:+ path +:+ "/#top")%string
    | _ => Py.Raise Py.ValueError
    end in
  let liang := KeynoteEvent.mk (Some Location.R0) None None "Liang" "liang2" in
  KeynoteEvent.get_absolute_url reverse liang =
    Py.Ok "/en-us/events/keynotes/#keynote-speaker-liang2"%string.
Proof.
  intros reverse liang.
  apply (keynote_url_replaces_fragment reverse liang
           "/en-us/events/keynotes/"%string "top"%string).
  - reflexivity.
  - repeat split.
Defined.

(** X10: a query string the page URL carries is kept in front of the
    fragment; a bare question mark with nothing after it is dropped. *)
Theorem keynote_url_keeps_query
    (reverse : string → list (string * string) → Py.result string)
    (self : KeynoteEvent.t) (page q : string) :
  reverse "page"%string [("path", "events/keynotes")]%string =
    Py.Ok (page +:+ "?" +:+ q)%string →
  rooted_path page →
  urllib_parse.contains "#" q = false →
  KeynoteEvent.get_absolute_url reverse self =
    Py.Ok ((if urllib_parse.truthy q then page +:+ "?" +:+ q else page)
             +:+ "#" +:+ "keynote-speaker-" +:+ KeynoteEvent.slug self)%string.
Proof.
  intros Hrev Hpath Hq. unfold KeynoteEvent.get_absolute_url.
  rewrite Hrev. simpl. rewrite urlsplit_path_query by done. simpl.
  unfold urllib_parse.replace_fragment, urllib_parse.urlunsplit. simpl.
  by destruct q.
Qed.

Lemma keynote_url_keeps_query_witness :
  let reverse := fun (name : string) (kwargs : list (string * string)) =>
    match kwargs with
    | [(_, path)] => Py.Ok ("/en-us/" +:+ path +:+ "/?day=2")%string
    | _ => Py.Raise Py.ValueError
    end in
  let liang := KeynoteEvent.mk (Some Location.R0) None None "Liang" "liang2" in
  KeynoteEvent.get_absolute_url reverse liang =
    Py.Ok "/en-us/events/keynotes/?day=2#keynote-speaker-liang2"%string.
Proof.
  intros reverse liang.
  apply (keynote_url_keeps_query reverse liang
           "/en-us/events/keynotes/"%string "day=2"%string).
  - reflexivity.
  - repeat split.
  - reflexivity.
Defined.

Section keynote_url_any.

Import urllib_parse.

Lemma urlsplit_raises_value_error (url : string) (e : Py.exn) :
  urlsplit url = Py.Raise e → e = Py.ValueError.
Proof.
  unfold urlsplit. destruct (split_scheme url) as [sch rest].
  destruct (String.prefix "//" rest).
  - destruct (splitnetloc (str_drop 2 rest)) as [loc rest'].
    destruct (_ || _); simpl.
    + by intros [= <-].
    + destruct (contains "#" rest'); [destruct (split1 "#" rest') as [u f]|];
        match goal with
        | |- context [contains "?" ?x] =>
            destruct (contains "?" x); [destruct (split1 "?" x)|]
        end; done.
  - simpl.
    destruct (contains "#" rest); [destruct (split1 "#" rest) as [u f]|];
      match goal with
      | |- context [contains "?" ?x] =>
          destruct (contains "?" x); [destruct (split1 "?" x)|]
      end; done.
Qed.

Lemma urlunsplit_ends_with_fragment (split : SplitResult) (frag : string) :
  truthy frag = true →
  ∃ base, urlunsplit (replace_fragment split frag) = (base +:+ "#" +:+ frag)%string.
Proof.
  intros Hfrag. unfold urlunsplit, replace_fragment. simpl. rewrite Hfrag.
  by eexists.
Qed.

End keynote_url_any.

(** X11: whatever URL the route resolves to, [get_absolute_url] of a
    keynote either returns a string that ends in [#keynote-speaker-]
    followed by the slug, or raises what [reverse] raised, or raises
    [ValueError] for a URL that cannot be split. *)
Theorem keynote_url_outcomes
    (reverse : string → list (string * string) → Py.result string)
    (self : KeynoteEvent.t) :
  (∀ r, KeynoteEvent.get_absolute_url reverse self = Py.Ok r →
        ∃ base, r = (base +:+ "#keynote-speaker-"
                          +:+ KeynoteEvent.slug self)%string) ∧
  (∀ e, KeynoteEvent.get_absolute_url reverse self = Py.Raise e →
        reverse "page"%string [("path", "events/keynotes")]%string =
          Py.Raise e ∨
        e = Py.ValueError).
Proof.
  unfold KeynoteEvent.get_absolute_url.
  destruct (reverse "page"%string [("path", "events/keynotes")]%string)
    as [url|e0]; simpl; [|split; [done | intros e [= <-]; by left]].
  destruct (urllib_parse.urlsplit url) as [split|e0] eqn:Hsplit; simpl.
  - split; [|done]. intros r [= <-].
    destruct (urlunsplit_ends_with_fragment split
                ("keynote-speaker-" +:+ KeynoteEvent.slug self)%string)
      as [base Hbase]; [done|].
    exists base. by rewrite Hbase.
  - split; [done|]. intros e [= <-]. right.
    by apply (urlsplit_raises_value_error url).
Qed.

(** ** What the joined query set brings back *)

Section joined_rows.

Import ProposedTalkEvent.

Variable proposals : list TalkProposal.t.

Lemma get_ok_filter (value : Z) (p : TalkProposal.t) :
  TalkProposal.get proposals value = Py.Ok p →
  base.filter (fun q => TalkProposal.pk q = value) proposals = [p].
Proof.
  unfold TalkProposal.get.
  destruct (base.filter _ proposals) as [|q [|q' l]]; try done.
  by intros [= ->].
Qed.

Lemma load_joined_sound (r : row) (e : t) :
  load proposals true r = Some e →
  fields e = r ∧
  ∃ p, proposal_cache e = Some p ∧ p ∈ proposals ∧
       TalkProposal.pk p = proposal_id r.
Proof.
  unfold load.
  destruct (base.filter _ proposals) as [|p l] eqn:Hf; [done|].
  intros [= <-]. split; [done|]. exists p. split; [done|].
  assert (p ∈ base.filter (fun q => TalkProposal.pk q = proposal_id r) proposals)
    as Hp by (rewrite Hf; left).
  apply list_elem_of_filter in Hp. tauto.
Qed.

Lemma load_joined_complete (rs : list row) :
  Forall (fun r => Py.returns (TalkProposal.get proposals (proposal_id r))) rs →
  fields <$> omap (load proposals true) rs = rs.
Proof.
  induction 1 as [|r rs [p Hp] _ IH]; [done|].
  change (omap (load proposals true) (r :: rs))
    with (match load proposals true r with
          | Some e => e :: omap (load proposals true) rs
          | None => omap (load proposals true) rs
          end).
  unfold load at 1. rewrite (get_ok_filter _ _ Hp). cbv iota beta.
  by rewrite fmap_cons, IH.
Qed.

(** Under referential integrity the two managers read the same titles,
    at different cost. *)
Lemma titles_agree (rs : list row) (n m : nat) :
  Forall (fun r => Py.returns (TalkProposal.get proposals (proposal_id r))) rs →
  ∃ titles,
    Db.for_each (__str__ proposals) (omap (load proposals true) rs) n =
      (Py.Ok titles, n) ∧
    Db.for_each (__str__ proposals) ((fun r => mk r None) <$> rs) m =
      (Py.Ok titles, (m + length titles)%nat).
Proof.
  intros Hrs. revert n m.
  induction Hrs as [|r rs [p Hp] _ IH]; intros n m.
  { exists []. simpl. unfold Db.ret. by rewrite Nat.add_0_r. }
  destruct (IH n (S m)) as (titles & Hjoin & Hplain).
  exists (TalkProposal.title p :: titles).
  change (omap (load proposals true) (r :: rs))
    with (match load proposals true r with
          | Some e => e :: omap (load proposals true) rs
          | None => omap (load proposals true) rs
          end).
  unfold load at 1. rewrite (get_ok_filter _ _ Hp). cbv iota beta.
  rewrite fmap_cons. cbn [Db.for_each]. split.
  - unfold Db.bind at 1.
    rewrite (str_cached proposals (mk r (Some p)) p n eq_refl).
    unfold Db.bind, Db.ret. by rewrite Hjoin.
  - unfold Db.bind at 1.
    rewrite (str_uncached proposals (mk r None) p m eq_refl Hp).
    unfold Db.bind, Db.ret. rewrite Hplain. f_equal. simpl. lia.
Qed.

End joined_rows.

Section manager_runs.

Import ProposedTalkEvent.

Lemma joined_flag (f : row → bool) :
  bool_decide ("proposal"%string ∈
     qs_select_related (ProposedTalkEventManager.filter f)) = true.
Proof. apply bool_decide_eq_true_2. simpl. set_solver. Qed.

Lemma selected_rows (f : row → bool) (events : list row) :
  base.filter (fun r => qs_where (ProposedTalkEventManager.filter f) r = true)
              events
  = base.filter (fun r => f r = true) events.
Proof. apply list_filter_iff. intros r. by simpl. Qed.

Lemma Forall_selected {P : row → Prop} (f : row → bool) (events : list row) :
  Forall P events → Forall P (base.filter (fun r => f r = true) events).
Proof.
  rewrite !Forall_forall. intros H r Hr.
  apply list_elem_of_filter in Hr as [_ Hr]. by apply H.
Qed.

End manager_runs.

(** X12: when every talk event refers to exactly one stored proposal,
    the default manager and the plain manager read the same titles for
    any selection of rows; the default manager sends one query, the
    plain one sends one more for each title. *)
Theorem managers_read_same_titles
    (proposals : list TalkProposal.t) (events : list ProposedTalkEvent.row)
    (f : ProposedTalkEvent.row → bool) (n : nat) :
  Forall (fun r => Py.returns
            (TalkProposal.get proposals (ProposedTalkEvent.proposal_id r)))
         events →
  ∃ titles,
    Db.bind (ProposedTalkEvent.fetch proposals events
               (ProposedTalkEventManager.filter f))
            (Db.for_each (ProposedTalkEvent.__str__ proposals)) n =
      (Py.Ok titles, S n) ∧
    Db.bind (ProposedTalkEvent.fetch proposals events
               (ProposedTalkEvent.qs_filter f Manager.get_queryset))
            (Db.for_each (ProposedTalkEvent.__str__ proposals)) n =
      (Py.Ok titles, (S n + length titles)%nat).
Proof.
  intros Hint.
  unfold Db.bind, ProposedTalkEvent.fetch, Db.query.
  rewrite joined_flag, selected_rows.
  change (bool_decide ("proposal"%string ∈
            ProposedTalkEvent.qs_select_related
              (ProposedTalkEvent.qs_filter f Manager.get_queryset)))
    with false.
  change (base.filter
            (fun r => ProposedTalkEvent.qs_where
                        (ProposedTalkEvent.qs_filter f Manager.get_queryset) r
                      = true) events)
    with (base.filter
            (fun r => ProposedTalkEvent.qs_where
                        (ProposedTalkEventManager.filter f) r = true) events).
  rewrite selected_rows, load_plain.
  apply titles_agree. by apply Forall_selected.
Qed.

Lemma managers_read_same_titles_witness :
  let proposals := [TalkProposal.mk 7 "Type hints in anger" true;
                    TalkProposal.mk 9 "Inside the import system" true] in
  let events := [ProposedTalkEvent.mk_row 1 (Some Location.R0) None None 9;
                 ProposedTalkEvent.mk_row 2 (Some Location.R1) None None 7] in
  ∃ titles,
    Db.bind (ProposedTalkEvent.fetch proposals events
               (ProposedTalkEventManager.filter (fun _ => true)))
            (Db.for_each (ProposedTalkEvent.__str__ proposals)) O =
      (Py.Ok titles, 1%nat) ∧
    Db.bind (ProposedTalkEvent.fetch proposals events
               (ProposedTalkEvent.qs_filter (fun _ => true) Manager.get_queryset))
            (Db.for_each (ProposedTalkEvent.__str__ proposals)) O =
      (Py.Ok titles, (1 + length titles)%nat).
Proof.
  intros proposals events.
  apply (managers_read_same_titles proposals events (fun _ => true) O).
  repeat constructor; eexists; reflexivity.
Defined.

(** X13: the rows the default manager brings back are rows of the table
    that satisfy the filter, each carrying a stored proposal whose key
    is the row's [proposal_id]; and when every row refers to exactly
    one stored proposal, they are all the rows that satisfy the filter,
    in table order. *)
Theorem joined_fetch_rows
    (proposals : list TalkProposal.t) (events : list ProposedTalkEvent.row)
    (f : ProposedTalkEvent.row → bool) (n : nat) :
  ∃ es,
    ProposedTalkEvent.fetch proposals events
      (ProposedTalkEventManager.filter f) n = (Py.Ok es, S n) ∧
    Forall (fun e =>
              ProposedTalkEvent.fields e ∈ events ∧
              f (ProposedTalkEvent.fields e) = true ∧
              ∃ p, ProposedTalkEvent.proposal_cache e = Some p ∧
                   p ∈ proposals ∧
                   TalkProposal.pk p =
                     ProposedTalkEvent.proposal_id (ProposedTalkEvent.fields e))
           es ∧
    (Forall (fun r => Py.returns
               (TalkProposal.get proposals (ProposedTalkEvent.proposal_id r)))
            events →
     ProposedTalkEvent.fields <$> es = base.filter (fun r => f r = true) events).
Proof.
  unfold ProposedTalkEvent.fetch, Db.query.
  rewrite joined_flag, selected_rows.
  eexists. split; [reflexivity|]. split.
  - apply Forall_forall. intros e He.
    apply list_elem_of_omap in He as (r & Hr & Hload).
    apply load_joined_sound in Hload as (-> & Hp).
    apply list_elem_of_filter in Hr as [Hf Hr]. done.
  - intros Hint. apply load_joined_complete. by apply Forall_selected.
Qed.

(** X14: for a talk event brought back by the default manager,
    [get_absolute_url] sends no query and is the route
    [events_talk_detail] resolved for the row's [proposal_id], raising
    when [reverse] does. *)
Theorem talk_url_without_query
    (reverse : string → list (string * Z) → Py.result string)
    (proposals : list TalkProposal.t) (events : list ProposedTalkEvent.row)
    (f : ProposedTalkEvent.row → bool) (n : nat) :
  ∃ es,
    ProposedTalkEvent.fetch proposals events
      (ProposedTalkEventManager.filter f) n = (Py.Ok es, S n) ∧
    ∀ e m, e ∈ es →
      ProposedTalkEvent.get_absolute_url reverse proposals e m =
        (reverse "events_talk_detail"%string
           [("pk"%string,
             ProposedTalkEvent.proposal_id (ProposedTalkEvent.fields e))], m).
Proof.
  unfold ProposedTalkEvent.fetch, Db.query.
  rewrite joined_flag, selected_rows.
  eexists. split; [reflexivity|]. intros e m He.
  apply list_elem_of_omap in He as (r & Hr & Hload).
  apply load_joined_sound in Hload as (<- & p & Hcache & _ & Hpk).
  unfold ProposedTalkEvent.get_absolute_url, ProposedTalkEvent.proposal, Db.bind.
  rewrite Hcache. unfold Db.ret, Db.raise. cbv beta iota. rewrite Hpk.
  by destruct (reverse _ _).
Qed.

(** ** The current schedule *)

Section current_schedule.

Import Schedule.

(** On a table with a row, [latest] returns a row no other exceeds. *)
Lemma latest_maximal (rows : list t) :
  rows ≠ [] →
  ∃ r, latest rows = Py.Ok r ∧ r ∈ rows ∧
       ∀ r', r' ∈ rows → created_at r' ≤ created_at r.
Proof.
  intros Hne.
  destruct (order_by_created_at rows) as (ordered & Hord & Hperm & Hsorted).
  unfold latest.
  change ("-" +:+ Meta.get_latest_by)%string with "-created_at"%string.
  rewrite Hord. simpl.
  destruct ordered as [|r rest].
  { apply Permutation_nil_l in Hperm. by subst. }
  exists r. split; [done|]. split; [rewrite <- Hperm; left|].
  intros r' Hr'. rewrite <- Hperm in Hr'.
  apply StronglySorted_inv in Hsorted as [_ Hall].
  apply elem_of_cons in Hr' as [->|Hr']; [lia|].
  rewrite Forall_forall in Hall. by apply Hall.
Qed.

Lemma latest_returned (rows : list t) (r : t) :
  latest rows = Py.Ok r →
  r ∈ rows ∧ ∀ r', r' ∈ rows → created_at r' ≤ created_at r.
Proof.
  intros Hr. destruct rows as [|x rows]; [done|].
  destruct (latest_maximal (x :: rows)) as (r0 & Hr0 & Hin & Hmax); [done|].
  rewrite Hr in Hr0. by injection Hr0 as ->.
Qed.

End current_schedule.

(** X15: the instant of the latest schedule does not depend on the
    order in which the table holds its rows. *)
Theorem latest_instant_order_free (rows rows' : list Schedule.t) (r : Schedule.t) :
  rows ≡ₚ rows' →
  Schedule.latest rows = Py.Ok r →
  ∃ r', Schedule.latest rows' = Py.Ok r' ∧
        Schedule.created_at r' = Schedule.created_at r.
Proof.
  intros Hperm Hr. apply latest_returned in Hr as [Hin Hmax].
  destruct (latest_maximal rows') as (r' & Hr' & Hin' & Hmax').
  { intros ->. apply Permutation_nil_r in Hperm. subst.
    by apply not_elem_of_nil in Hin. }
  exists r'. split; [done|].
  rewrite <- Hperm in Hin'. rewrite Hperm in Hin.
  specialize (Hmax r' Hin'). specialize (Hmax' r Hin). lia.
Qed.

Lemma latest_instant_order_free_witness :
  let draft := Schedule.mk 1 "<table>draft</table>" 1464739200000000 in
  let final := Schedule.mk 2 "<table>final</table>" 1464825600000000 in
  ∃ r', Schedule.latest [final; draft] = Py.Ok r' ∧
        Schedule.created_at r' = 1464825600000000.
Proof.
  intros draft final.
  apply (latest_instant_order_free [draft; final] [final; draft] final).
  - apply Permutation_swap.
  - reflexivity.
Defined.

(** X16: a schedule created at an instant later than that of every
    stored one is stamped with that instant and becomes the latest. *)
Theorem created_schedule_is_latest
    (html : string) (now : Z) (rows : list Schedule.t) :
  (∀ r, r ∈ rows → Schedule.created_at r < now) →
  Schedule.latest (fst (Schedule.create html now rows)) =
    Py.Ok (snd (Schedule.create html now rows)) ∧
  Schedule.html (snd (Schedule.create html now rows)) = html ∧
  Schedule.created_at (snd (Schedule.create html now rows)) = now.
Proof.
  intros Hnew. unfold Schedule.create. simpl.
  split; [|done].
  destruct (latest_maximal
              (rows ++ [Schedule.mk (Schedule.next_id rows) html now]))
    as (r & Hr & Hin & Hmax).
  { by destruct rows. }
  rewrite Hr. f_equal.
  apply elem_of_app in Hin as [Hin|Hin].
  - specialize (Hnew r Hin).
    specialize (Hmax (Schedule.mk (Schedule.next_id rows) html now)).
    simpl in Hmax. rewrite elem_of_app, list_elem_of_singleton in Hmax.
    specialize (Hmax (or_intror eq_refl)). lia.
  - by apply list_elem_of_singleton in Hin.
Qed.

Lemma created_schedule_is_latest_witness :
  let draft := Schedule.mk 1 "<table>draft</table>" 1464739200000000 in
  Schedule.latest
    (fst (Schedule.create "<table>final</table>" 1464825600000000 [draft])) =
    Py.Ok (Schedule.mk 2 "<table>final</table>" 1464825600000000).
Proof.
  intros draft.
  apply (created_schedule_is_latest
           "<table>final</table>" 1464825600000000 [draft]).
  intros r Hr. apply list_elem_of_singleton in Hr. subst r. simpl. lia.
Defined.

(** X17: creating a schedule never moves the latest instant back: after
    the creation it is the later of the previous latest instant and the
    instant of creation. *)
Theorem latest_instant_after_create
    (html : string) (now : Z) (rows : list Schedule.t) (old : Schedule.t) :
  Schedule.latest rows = Py.Ok old →
  ∃ r, Schedule.latest (fst (Schedule.create html now rows)) = Py.Ok r ∧
       Schedule.created_at r = Z.max (Schedule.created_at old) now.
Proof.
  intros Hold. apply latest_returned in Hold as [Hin Hmax].
  unfold Schedule.create. simpl.
  destruct (latest_maximal
              (rows ++ [Schedule.mk (Schedule.next_id rows) html now]))
    as (r & Hr & Hin' & Hmax').
  { by destruct rows. }
  exists r. split; [done|].
  pose proof (Hmax' old) as Hge_old.
  pose proof (Hmax' (Schedule.mk (Schedule.next_id rows) html now)) as Hge_new.
  rewrite elem_of_app in Hge_old, Hge_new.
  specialize (Hge_old (or_introl Hin)).
  specialize (Hge_new (or_intror (list_elem_of_here _ _))). simpl in Hge_new.
  apply elem_of_app in Hin' as [Hr'|Hr'].
  - specialize (Hmax r Hr'). lia.
  - apply list_elem_of_singleton in Hr'. subst r. simpl in *. lia.
Qed.

Lemma latest_instant_after_create_witness :
  let final := Schedule.mk 1 "<table>final</table>" 1464825600000000 in
  ∃ r, Schedule.latest
         (fst (Schedule.create "<table>late</table>" 1464739200000000 [final]))
       = Py.Ok r ∧
       Schedule.created_at r = Z.max 1464825600000000 1464739200000000.
Proof.
  intros final.
  apply (latest_instant_after_create
           "<table>late</table>" 1464739200000000 [final] final).
  reflexivity.
Defined.
